(** * sliderule/io.py: export and import of SlideRule tables

    A shallow embedding of [src/sliderule/io.py]: the attribute schema
    ([get_attributes]), the region codec ([coordinates]), the classic
    (netCDF-3) writer and reader ([to_nc], [from_nc]), the two hierarchical
    (HDF5) variants ([write_pytables]/[read_pytables] and
    [write_h5py]/[read_h5py]) and the dispatchers ([to_hdf], [from_hdf],
    [to_file], [from_file]).

    Python exceptions are the [Raise] results of an error monad, a file
    system is a finite map from paths to container files, and a Python
    [dict] whose iteration order the code relies on is an association list
    that keeps insertion order. *)

From Stdlib Require Import ZArith Floats Ascii.
From stdpp Require Import gmap strings list sorting pretty.

Local Open Scope Z_scope.

(** ** Exceptions *)

Inductive exn :=
  | KeyError (key : string)
  | TypeError
  | ValueError
  | AttributeError
  | OSError.

Inductive result (A : Type) :=
  | Ok (a : A)
  | Raise (e : exn).
Arguments Ok {A} a.
Arguments Raise {A} e.

Global Instance result_ret : MRet result := λ A a, Ok a.
Global Instance result_bind : MBind result := λ A B f m,
  match m with Ok a => f a | Raise e => Raise e end.

Definition is_ok {A} (m : result A) : bool :=
  match m with Ok _ => true | Raise _ => false end.

(** [try: x = m  except: pass], with [d] the state when the body raises. *)
Definition try_except {A} (m : result A) (d : A) : A :=
  match m with Ok a => a | Raise _ => d end.

(** A [for] loop whose body may raise. *)
Fixpoint foldM {A B} (f : B → A → result B) (b : B) (l : list A) : result B :=
  match l with
  | [] => Ok b
  | a :: l => b' ← f b a; foldM f b' l
  end.

(** ** Python dictionaries in insertion order *)

Section dict.
Context {A : Type}.

Fixpoint dict_get (k : string) (d : list (string * A)) : option A :=
  match d with
  | [] => None
  | (k', v) :: d => if String.eqb k k' then Some v else dict_get k d
  end.

(** [d[k]] *)
Definition dict_getitem (k : string) (d : list (string * A)) : result A :=
  match dict_get k d with Some v => Ok v | None => Raise (KeyError k) end.

(** [d[k] = v]: an existing key keeps its place, a new one goes last. *)
Fixpoint dict_setitem (k : string) (v : A) (d : list (string * A))
    : list (string * A) :=
  match d with
  | [] => [(k, v)]
  | (k', v') :: d =>
      if String.eqb k k' then (k, v) :: d else (k', v') :: dict_setitem k v d
  end.

(** Removal of a key that, where the code uses it, was read just before. *)
Fixpoint dict_del (k : string) (d : list (string * A)) : list (string * A) :=
  match d with
  | [] => []
  | (k', v) :: d =>
      if String.eqb k k' then dict_del k d else (k', v) :: dict_del k d
  end.

Definition dict_keys (d : list (string * A)) : list string := d.*1.
End dict.

(** Values of a dictionary mapped, keys and order kept. *)
Definition dict_map {A B} (f : A → B) (d : list (string * A)) : list (string * B) :=
  prod_map id f <$> d.

(** ** Strings *)

Definition ascii_lower (c : ascii) : ascii :=
  let n := Ascii.N_of_ascii c in
  if ((65 <=? n) && (n <=? 90))%N then Ascii.ascii_of_N (n + 32) else c.

(** [str.lower] on the ASCII range; none of the tokens the module compares
    with is the lower case of a character outside it. *)
Fixpoint lower (s : string) : string :=
  match s with
  | EmptyString => EmptyString
  | String c s => String (ascii_lower c) (lower s)
  end.

Definition str_in (s : string) (l : list string) : bool :=
  existsb (String.eqb s) l.

(** ** numpy element types, scalars and arrays *)

Inductive dtype :=
  | uint8 | uint16 | uint32 | uint64
  | int8 | int16 | int32 | int64
  | float64.

Global Instance dtype_eq_dec : EqDecision dtype.
Proof. solve_decision. Defined.

(** [np.issubdtype(dt, np.unsignedinteger)] *)
Definition is_unsigned (dt : dtype) : bool :=
  match dt with uint8 | uint16 | uint32 | uint64 => true | _ => false end.

Definition itemsize (dt : dtype) : Z :=
  match dt with
  | uint8 | int8 => 1
  | uint16 | int16 => 2
  | uint32 | int32 => 4
  | uint64 | int64 | float64 => 8
  end.

Inductive scalar :=
  | SInt (z : Z)
  | SFloat (f : float).

(** The values an element type holds. *)
Definition in_range (dt : dtype) (s : scalar) : Prop :=
  match dt, s with
  | float64, SFloat _ => True
  | float64, SInt _ => False
  | _, SFloat _ => False
  | dt, SInt z =>
      if is_unsigned dt then 0 ≤ z < 2 ^ (8 * itemsize dt)
      else - 2 ^ (8 * itemsize dt - 1) ≤ z < 2 ^ (8 * itemsize dt - 1)
  end.

(** [dtype.byteorder]: ['='], ['>'] and ['|'] (one-byte elements). *)
Inductive byteorder := Native | BigEndian | NotApplicable.

Definition order_of (o : byteorder) (dt : dtype) : byteorder :=
  if itemsize dt =? 1 then NotApplicable else o.

Record ndarray := NDArray {
  arr_dtype : dtype;
  arr_order : byteorder;
  arr_shape : list nat;
  arr_items : list scalar;
}.

(** A one-dimensional array in native byte order. *)
Definition array (dt : dtype) (l : list scalar) : ndarray :=
  NDArray dt (order_of Native dt) [length l] l.

(** [len(a)] *)
Definition len (a : ndarray) : nat := length (arr_items a).

(** A column of a frame: one-dimensional, native, its values in range. *)
Definition column_ok (n : nat) (a : ndarray) : Prop :=
  arr_order a = order_of Native (arr_dtype a)
  ∧ arr_shape a = [n]
  ∧ length (arr_items a) = n
  ∧ Forall (in_range (arr_dtype a)) (arr_items a).

(** Two's complement wrap-around to [bits] bits. *)
Definition wrap (bits : Z) (z : Z) : Z :=
  (z + 2 ^ (bits - 1)) mod 2 ^ bits - 2 ^ (bits - 1).

(** The integer part of a float, [None] when it has none (nan, inf). *)
Definition float_trunc (f : float) : option Z :=
  match Prim2SF f with
  | S754_zero _ => Some 0
  | S754_finite s m e =>
      let v := if 0 <=? e then Z.pos m * 2 ^ e else Z.pos m / 2 ^ (- e) in
      Some (if s then - v else v)
  | S754_infinity _ | S754_nan => None
  end.

(** The float64 nearest to an integer. *)
Definition float_of_Z (z : Z) : float :=
  SF2Prim (binary_normalize prec emax z 0 false).

(** [a.astype(np.int32)]: integers wrap, as numpy's C cast does. *)
Definition scalar_to_int32 (s : scalar) : scalar :=
  match s with
  | SInt z => SInt (wrap 32 z)
  | SFloat f => SInt (wrap 32 (default (- 2 ^ 31) (float_trunc f)))
  end.

Definition astype_int32 (a : ndarray) : ndarray :=
  NDArray int32 (order_of Native int32) (arr_shape a)
    (scalar_to_int32 <$> arr_items a).

(** [np.asarray(a, dtype="float64")] on one element. *)
Definition scalar_to_float (s : scalar) : float :=
  match s with SInt z => float_of_Z z | SFloat f => f end.

(** [a.squeeze()]: the axes of length one are removed, so an array with a
    single element becomes zero-dimensional. *)
Definition squeeze (a : ndarray) : ndarray :=
  NDArray (arr_dtype a) (arr_order a)
    (filter (λ d, d ≠ 1%nat) (arr_shape a)) (arr_items a).

(** [a.byteswap().newbyteorder()]: the bytes and the declared order are both
    swapped, so the values stand and the array is native. *)
Definition byteswap_newbyteorder (a : ndarray) : ndarray :=
  NDArray (arr_dtype a) Native (arr_shape a) (arr_items a).

(** [a.copy()] *)
Definition copy (a : ndarray) : ndarray := a.

(** ** datetime64[ns] and timedelta64[ns] *)

Inductive time64 :=
  | NaT
  | Nanos (ns : Z).

Global Instance time64_eq_dec : EqDecision time64.
Proof. solve_decision. Defined.

(** [(x * 1e9).astype('timedelta64[ns]')] on one element: the product is
    taken in float64 and cut to a 64-bit count; nan, and a product with
    no 64-bit count, give not-a-time. *)
Definition to_timedelta64_ns (s : scalar) : time64 :=
  match float_trunc (PrimFloat.mul (scalar_to_float s) 1e9%float) with
  | Some n => if (- 2 ^ 63 <? n) && (n <? 2 ^ 63) then Nanos n else NaT
  | None => NaT
  end.

(** Python's [datetime] ordinal of a date (day 1 is 0001-01-01). *)
Definition is_leap (year : Z) : bool :=
  (year mod 4 =? 0) && (negb (year mod 100 =? 0) || (year mod 400 =? 0)).

Definition days_before_year (year : Z) : Z :=
  let y := year - 1 in y * 365 + y / 4 - y / 100 + y / 400.

Definition days_before_month (year month : Z) : Z :=
  nth (Z.to_nat month) [0; 0; 31; 59; 90; 120; 151; 181; 212; 243; 273; 304; 334] 0
  + (if (2 <? month) && is_leap year then 1 else 0).

Definition ymd2ord (year month day : Z) : Z :=
  days_before_year year + days_before_month year month + day.

(** [np.datetime64(datetime.datetime(y, m, d))] counted in nanoseconds since
    1970-01-01T00:00:00. *)
Definition datetime64_ns (year month day : Z) : Z :=
  (ymd2ord year month day - ymd2ord 1970 1 1) * 86400 * 10 ^ 9.

Definition atlas_sdp_epoch : Z := datetime64_ns 2018 1 1.

(** [epoch + delta]: 64-bit addition, not-a-time absorbing. *)
Definition datetime_add (epoch : Z) (delta : time64) : time64 :=
  match delta with
  | NaT => NaT
  | Nanos d =>
      let t := wrap 64 (epoch + d) in
      if t =? - 2 ^ 63 then NaT else Nanos t
  end.

(** Ascending order of an index, not-a-time last. *)
Definition time_leb (a b : time64) : bool :=
  match a, b with
  | _, NaT => true
  | NaT, Nanos _ => false
  | Nanos x, Nanos y => x <=? y
  end.

Definition time_le (a b : time64) : Prop := time_leb a b = true.

(** ** Tables *)

(** A shapely point of the geometry column. *)
Record Point := { point_x : float; point_y : float }.

Inductive Index :=
  | RangeIndex (n : nat)
  | DatetimeIndex (t : list time64).

Record DataFrame := {
  df_index : Index;
  df_columns : list (string * ndarray);
}.

(** The columns other than the geometry, and the geometry column. *)
Record GeoDataFrame := {
  gdf_frame : DataFrame;
  gdf_geometry : list Point;
}.

Definition index_len (i : Index) : nat :=
  match i with RangeIndex n => n | DatetimeIndex t => length t end.

(** [df[k]] *)
Definition df_getitem (df : DataFrame) (k : string) : result ndarray :=
  dict_getitem k (df_columns df).

(** [df[k] = a] *)
Definition df_setitem (df : DataFrame) (k : string) (a : ndarray) : DataFrame :=
  {| df_index := df_index df; df_columns := dict_setitem k a (df_columns df) |}.

(** [df.drop(columns=ks)] after the columns were read. *)
Definition df_drop (df : DataFrame) (ks : list string) : DataFrame :=
  {| df_index := df_index df;
     df_columns := foldr dict_del (df_columns df) ks |}.

(** [n] rows: every column and the geometry have [n] entries, the column
    names are distinct. *)
Definition table_ok (n : nat) (gdf : GeoDataFrame) : Prop :=
  index_len (df_index (gdf_frame gdf)) = n
  ∧ length (gdf_geometry gdf) = n
  ∧ NoDup (dict_keys (df_columns (gdf_frame gdf)))
  ∧ Forall (λ kv, column_ok n kv.2) (df_columns (gdf_frame gdf)).

(** Lines 170-173 and 266-269: the frame without the geometry, with the
    coordinates of the points appended as two float columns. *)
Definition flatten_geometry (gdf : GeoDataFrame) : DataFrame :=
  let df := gdf_frame gdf in
  let df := df_setitem df "latitude"
              (array float64 (SFloat ∘ point_y <$> gdf_geometry gdf)) in
  df_setitem df "longitude"
    (array float64 (SFloat ∘ point_x <$> gdf_geometry gdf)).

(** [geopandas.points_from_xy(x, y)]: both arguments become float arrays;
    a zero-dimensional argument has no length. *)
Definition points_from_xy (x y : ndarray) : result (list Point) :=
  match arr_shape x, arr_shape y with
  | [_], [_] =>
      if decide (len x = len y) then
        Ok (zip_with (λ a b, {| point_x := scalar_to_float a;
                                point_y := scalar_to_float b |})
              (arr_items x) (arr_items y))
      else Raise ValueError
  | _, _ => Raise TypeError
  end.

(** [pd.DataFrame(d)] for a dictionary of arrays: a fresh range index over
    one-dimensional columns of one length. *)
Definition DataFrame_of_dict (n : nat) (d : list (string * ndarray))
    : result DataFrame :=
  if forallb (λ kv, bool_decide (arr_shape kv.2 = [n] ∧ len kv.2 = n)) d
  then Ok {| df_index := RangeIndex n; df_columns := d |}
  else Raise ValueError.

(** [geopandas.GeoDataFrame(df, geometry=g)] *)
Definition GeoDataFrame_of (df : DataFrame) (g : list Point)
    : result GeoDataFrame :=
  if decide (length g = index_len (df_index df))
  then Ok {| gdf_frame := df_drop df ["geometry"]; gdf_geometry := g |}
  else Raise ValueError.

(** *** Sorting by the index *)

Fixpoint insert_row (r : time64 * nat) (l : list (time64 * nat))
    : list (time64 * nat) :=
  match l with
  | [] => [r]
  | r' :: l' => if time_leb r.1 r'.1 then r :: l else r' :: insert_row r l'
  end.

(** The positions of the rows in ascending order of their keys. *)
Definition argsort (keys : list time64) : list nat :=
  (foldr insert_row [] (zip keys (seq 0 (length keys)))).*2.

(** [l.take(σ)] *)
Definition take {A} (σ : list nat) (l : list A) : list A :=
  omap (λ i, l !! i) σ.

Definition array_take (σ : list nat) (a : ndarray) : ndarray :=
  NDArray (arr_dtype a) (arr_order a) [length σ] (take σ (arr_items a)).

Definition index_sorted (i : Index) : Prop :=
  match i with
  | RangeIndex _ => True
  | DatetimeIndex t => Sorted time_le t
  end.

(** [nc['time'] = time], [pd.DataFrame(nc)] and [gdf.set_index('time')]
    leave the computed time column as the index and the other variables as
    the columns; [set_time_index] is the last of the three. *)
Definition set_time_index (time : list time64) (gdf : GeoDataFrame)
    : GeoDataFrame :=
  {| gdf_frame := {| df_index := DatetimeIndex time;
                     df_columns := df_columns (gdf_frame gdf) |};
     gdf_geometry := gdf_geometry gdf |}.

(** [gdf.sort_index()] *)
Definition sort_index (gdf : GeoDataFrame) : GeoDataFrame :=
  match df_index (gdf_frame gdf) with
  | RangeIndex _ => gdf
  | DatetimeIndex t =>
      let σ := argsort t in
      {| gdf_frame := {| df_index := DatetimeIndex (take σ t);
                         df_columns := dict_map (array_take σ)
                                         (df_columns (gdf_frame gdf)) |};
         gdf_geometry := take σ (gdf_geometry gdf) |}
  end.

(** ** Attribute values, keyword arguments and the libraries underneath *)

(** Python values that end up as attributes. *)
Inductive pyval :=
  | PyNone
  | PyInt (z : Z)
  | PyFloat (f : float)
  | PyStr (s : string)
  | PyInts (l : list Z)
  | PyStrs (l : list string)
  | PyArray (l : list float).

(** A point of a region: a record with [lon] and [lat]. *)
Record region_point := { lon : float; lat : float }.

(** The keyword arguments; [kw_driver = None] when the caller gave none,
    [kw_parameters = None] for Python's [None]. *)
Record kwargs := {
  kw_driver : option string;
  kw_parameters : option (gmap string pyval);
  kw_regions : list (list region_point);
  kw_verbose : bool;
}.

Definition no_kwargs : kwargs :=
  {| kw_driver := None; kw_parameters := None; kw_regions := [];
     kw_verbose := false |}.

Inductive backend := scipy_netcdf | pytables | h5py.

(** What the module cannot see from its own text: the wall clock that
    [datetime.datetime.now().isoformat()] reads, the element types the
    classic container has a variable type for, and the values each
    container takes as an attribute when one is assigned. *)
Record runtime := {
  now_isoformat : string;
  nc_has_type : dtype → bool;
  takes_attr : backend → pyval → bool;
}.

(** ** The attribute schema (lines 38-147) *)

(** A value of the schema: a file-level attribute, or the attributes of
    one variable in the order they are assigned. *)
Inductive schema_value :=
  | Global (v : pyval)
  | Entry (d : list (string * pyval)).

Definition get_attributes (now : string) : list (string * schema_value) :=
  [ ("featureType", Global (PyStr "trajectory"));
    ("title", Global (PyStr "ATLAS/ICESat-2 SlideRule Height"));
    ("reference", Global (PyStr "https://doi.org/10.5281/zenodo.5484048"));
    ("date_created", Global (PyStr now));
    ("geospatial_lat_units", Global (PyStr "degrees_north"));
    ("geospatial_lon_units", Global (PyStr "degrees_east"));
    ("geospatial_ellipsoid", Global (PyStr "WGS84"));
    ("date_type", Global (PyStr "UTC"));
    ("time_type", Global (PyStr "CCSDS UTC-A"));
    ("segment_id", Entry
       [ ("long_name", PyStr "Along-track segment ID number");
         ("coordinates", PyStr "latitude longitude") ]);
    ("delta_time", Entry
       [ ("units", PyStr "seconds since 2018-01-01");
         ("long_name", PyStr "Elapsed GPS seconds");
         ("standard_name", PyStr "time");
         ("calendar", PyStr "standard");
         ("coordinates", PyStr "latitude longitude") ]);
    ("latitude", Entry
       [ ("units", PyStr "degrees_north");
         ("long_name", PyStr "Latitude");
         ("standard_name", PyStr "latitude");
         ("valid_min", PyFloat (-90.0)%float);
         ("valid_max", PyFloat 90.0%float) ]);
    ("longitude", Entry
       [ ("units", PyStr "degrees_east");
         ("long_name", PyStr "Longitude");
         ("standard_name", PyStr "longitude");
         ("valid_min", PyFloat (-180.0)%float);
         ("valid_max", PyFloat 180.0%float) ]);
    ("h_mean", Entry
       [ ("units", PyStr "meters");
         ("long_name", PyStr "Height Mean");
         ("coordinates", PyStr "latitude longitude") ]);
    ("h_sigma", Entry
       [ ("units", PyStr "meters");
         ("long_name", PyStr "Height Error");
         ("coordinates", PyStr "latitude longitude") ]);
    ("rms_misfit", Entry
       [ ("units", PyStr "meters");
         ("long_name", PyStr "RMS of fit");
         ("coordinates", PyStr "latitude longitude") ]);
    ("dh_fit_dx", Entry
       [ ("units", PyStr "meters/meters");
         ("contentType", PyStr "modelResult");
         ("long_name", PyStr "Along Track Slope");
         ("coordinates", PyStr "latitude longitude") ]);
    ("dh_fit_dy", Entry
       [ ("units", PyStr "meters/meters");
         ("long_name", PyStr "Across Track Slope");
         ("coordinates", PyStr "latitude longitude") ]);
    ("n_fit_photons", Entry
       [ ("units", PyStr "1");
         ("long_name", PyStr "Number of Photons in Fit");
         ("coordinates", PyStr "latitude longitude") ]);
    ("w_surface_window_final", Entry
       [ ("units", PyStr "meters");
         ("long_name", PyStr "Surface Window Width");
         ("coordinates", PyStr "latitude longitude") ]);
    ("h_robust_sprd", Entry
       [ ("units", PyStr "meters");
         ("long_name", PyStr "Robust Spread");
         ("coordinates", PyStr "latitude longitude") ]);
    ("cycle", Entry
       [ ("long_name", PyStr "Orbital cycle");
         ("coordinates", PyStr "latitude longitude") ]);
    ("rgt", Entry
       [ ("long_name", PyStr "Reference Ground Track");
         ("coordinates", PyStr "latitude longitude") ]);
    ("gt", Entry
       [ ("long_name", PyStr "Ground track identifier");
         ("flag_values", PyInts [10; 20; 30; 40; 50; 60]);
         ("flag_meanings", PyStr "GT1L, GT1R, GT2L, GT2R, GT3L, GT3R");
         ("valid_min", PyInt 10);
         ("valid_max", PyInt 60) ]);
    ("spot", Entry
       [ ("long_name", PyStr "ATLAS spot number");
         ("coordinates", PyStr "latitude longitude");
         ("valid_min", PyInt 1);
         ("valid_max", PyInt 6) ]);
    ("pflags", Entry
       [ ("long_name", PyStr "Processing Flags");
         ("coordinates", PyStr "latitude longitude");
         ("flag_values", PyInts [0; 1; 2; 4]);
         ("flag_meanings",
          PyStr "valid, spread too short, too few photons, max iterations reached");
         ("valid_min", PyInt 0);
         ("valid_max", PyInt 4) ]) ].

(** [attributes[key].items()]: a missing key raises, and so does a key
    whose value is a string and not a dictionary. *)
Definition attributes_items (attributes : list (string * schema_value))
    (key : string) : result (list (string * pyval)) :=
  v ← dict_getitem key attributes;
  match v with
  | Entry d => Ok d
  | Global _ => Raise AttributeError
  end.

(** [attributes[key]] used as the value of a file-level attribute. *)
Definition attributes_global (attributes : list (string * schema_value))
    (key : string) : result pyval :=
  v ← dict_getitem key attributes;
  match v with
  | Global v => Ok v
  | Entry _ => Raise TypeError
  end.

(** ** The region codec (lines 150-157) *)

(** [np.zeros((npts))] *)
Definition zeros (npts : nat) : list float := replicate npts 0%float.

(** [for i, p in enumerate(l)] *)
Definition enumerate {A} (l : list A) : list (nat * A) := zip (seq 0 (length l)) l.

Definition coordinates (polygon : list region_point) : list float * list float :=
  let npts := length polygon in
  let x := zeros npts in
  let y := zeros npts in
  foldl (λ '(x, y) '(i, p), (<[i := lon p]> x, <[i := lat p]> y))
    (x, y) (enumerate polygon).

(** ['poly{0:d}_x'.format(i)] and ['poly{0:d}_y'.format(i)] *)
Definition poly_x (i : nat) : string := "poly" +:+ pretty i +:+ "_x".
Definition poly_y (i : nat) : string := "poly" +:+ pretty i +:+ "_y".

(** ** File-level attributes shared by the three writers *)

Definition SRparams : list string :=
  [ "H_min_win"; "atl08_class"; "ats"; "cnf"; "cnt"; "len";
    "maxi"; "res"; "sigma_r_max"; "srt" ].

(** [kwargs['parameters'][p]]: subscripting [None] and a missing key raise. *)
Definition parameters_getitem (kw : kwargs) (p : string) : result pyval :=
  match kw_parameters kw with
  | None => Raise TypeError
  | Some d => match d !! p with Some v => Ok v | None => Raise (KeyError p) end
  end.

(** ** Container files and the file system *)

Record netcdf_variable := {
  nv_dimensions : list string;
  nv_data : ndarray;
  nv_attrs : gmap string pyval;
}.

Record netcdf_file := {
  nc_dimensions : list (string * nat);
  nc_variables : list (string * netcdf_variable);
  nc_attrs : gmap string pyval;
}.

(** A pandas [HDFStore]: whole frames under their keys, and the attributes
    of the root group. *)
Record hdf_store := {
  hs_frames : list (string * DataFrame);
  hs_attrs : gmap string pyval;
}.

(** An h5py dataset: its data, its compression filter, the scales attached
    to its first dimension, and the attributes the program has set on it
    (the library's own records of the scales are kept apart, in
    [ds_scales]). *)
Record h5_dataset := {
  ds_data : ndarray;
  ds_compression : string;
  ds_scales : list string;
  ds_attrs : gmap string pyval;
}.

(** An h5py file: the datasets of the root group by name, and the
    attributes of the file. *)
Record h5_file := {
  h5_datasets : gmap string h5_dataset;
  h5_attrs : gmap string pyval;
}.

Inductive container :=
  | NetCDF (f : netcdf_file)
  | HDFStore (f : hdf_store)
  | H5File (f : h5_file).

Abbreviation filesystem := (gmap string container).

Section writers.
Context (R : runtime).

(** The copies of the file-level schema values, [(attribute, schema key)]
    in the order of the assignments. *)
Definition add_globals (attributes : list (string * schema_value))
    (names : list (string * string)) (attrs : gmap string pyval)
    : result (gmap string pyval) :=
  foldM (λ attrs '(name, key),
           v ← attributes_global attributes key;
           Ok (<[name := v]> attrs))
    attrs names.

(** One turn of the loop over [SRparams]: the assignment is tried, and
    whatever it raises is passed over. *)
Definition set_parameter (b : backend) (kw : kwargs)
    (attrs : gmap string pyval) (p : string) : gmap string pyval :=
  try_except
    (v ← parameters_getitem kw p;
     if takes_attr R b v then Ok (<[p := v]> attrs) else Raise TypeError)
    attrs.

Definition add_parameters (b : backend) (kw : kwargs)
    (attrs : gmap string pyval) : gmap string pyval :=
  foldl (set_parameter b kw) attrs SRparams.

(** One turn of the loop over the regions. *)
Definition set_region (attrs : gmap string pyval)
    (ip : nat * list region_point) : gmap string pyval :=
  let '(i, poly) := ip in
  let '(lon, lat) := coordinates poly in
  <[poly_y i := PyArray lat]> (<[poly_x i := PyArray lon]> attrs).

Definition add_regions (kw : kwargs) (attrs : gmap string pyval)
    : gmap string pyval :=
  foldl set_region attrs (enumerate (kw_regions kw)).

(** *** The classic writer (lines 160-218) *)

Definition zero_of (dt : dtype) : scalar :=
  match dt with float64 => SFloat 0%float | _ => SInt 0 end.

(** [fileID.createVariable(name, type, dimensions)]: a big-endian array
    over the dimensions, for a type the container has. *)
Definition createVariable (fileID : netcdf_file) (type : dtype)
    (dimensions : list string) : result netcdf_variable :=
  if nc_has_type R type then
    let shape := (λ d, default 0%nat (dict_get d (nc_dimensions fileID)))
                   <$> dimensions in
    Ok {| nv_dimensions := dimensions;
          nv_data := NDArray type (order_of BigEndian type) shape
                       (replicate (foldr Nat.mul 1%nat shape) (zero_of type));
          nv_attrs := ∅ |}
  else Raise ValueError.

(** [nc[:] = data], on a frame's column, which has the dimension's length. *)
Definition nv_assign (nc : netcdf_variable) (data : ndarray) : netcdf_variable :=
  {| nv_dimensions := nv_dimensions nc;
     nv_data := NDArray (arr_dtype (nv_data nc)) (arr_order (nv_data nc))
                  (arr_shape (nv_data nc)) (arr_items data);
     nv_attrs := nv_attrs nc |}.

(** [setattr(nc, att_key, att_val)] *)
Definition nv_setattr (nc : netcdf_variable) (k : string) (v : pyval)
    : netcdf_variable :=
  {| nv_dimensions := nv_dimensions nc; nv_data := nv_data nc;
     nv_attrs := <[k := v]> (nv_attrs nc) |}.

(** The variable one turn of the loop over [df.items()] creates: the
    data, downcast when unsigned, and the attributes of the schema's
    entry for the column. *)
Definition nc_variable (attributes : list (string * schema_value))
    (fileID : netcdf_file) (key : string) (val : ndarray)
    : result netcdf_variable :=
  nc ← (if is_unsigned (arr_dtype val) then
          nc ← createVariable fileID int32 ["delta_time"];
          Ok (nv_assign nc (astype_int32 val))
        else
          nc ← createVariable fileID (arr_dtype val) ["delta_time"];
          Ok (nv_assign nc (copy val)));
  items ← attributes_items attributes key;
  Ok (foldl (λ nc '(att_key, att_val), nv_setattr nc att_key att_val) nc items).

(** One turn of the loop, with the file it leaves. *)
Definition nc_write_column (attributes : list (string * schema_value))
    (fileID : netcdf_file) (kv : string * ndarray) : result netcdf_file :=
  nc ← nc_variable attributes fileID kv.1 kv.2;
  Ok {| nc_dimensions := nc_dimensions fileID;
        nc_variables := dict_setitem kv.1 nc (nc_variables fileID);
        nc_attrs := nc_attrs fileID |}.

Definition nc_global_names : list (string * string) :=
  [ ("featureType", "featureType"); ("title", "title");
    ("reference", "reference"); ("date_created", "date_created");
    ("geospatial_lat_units", "geospatial_lat_units");
    ("geospatial_lon_units", "geospatial_lon_units");
    ("geospatial_ellipsoid", "geospatial_ellipsoid");
    ("date_type", "date_type"); ("time_type", "time_type") ].

Definition to_nc (fs : filesystem) (gdf : GeoDataFrame) (filename : string)
    (kw : kwargs) : result filesystem :=
  let attributes := get_attributes (now_isoformat R) in
  let df := flatten_geometry gdf in
  delta_time ← df_getitem df "delta_time";
  let fileID := {| nc_dimensions := [("delta_time", len delta_time)];
                   nc_variables := []; nc_attrs := ∅ |} in
  fileID ← foldM (nc_write_column attributes) fileID (df_columns df);
  attrs ← add_globals attributes nc_global_names (nc_attrs fileID);
  let attrs := add_parameters scipy_netcdf kw attrs in
  let attrs := add_regions kw attrs in
  Ok (<[filename := NetCDF {| nc_dimensions := nc_dimensions fileID;
                              nc_variables := nc_variables fileID;
                              nc_attrs := attrs |}]> fs).

(** *** The hierarchical writers (lines 257-381) *)

Definition pytables_global_names : list (string * string) :=
  [ ("TITLE", "title");
    ("reference", "reference"); ("date_created", "date_created");
    ("geospatial_lat_units", "geospatial_lat_units");
    ("geospatial_lon_units", "geospatial_lon_units");
    ("geospatial_ellipsoid", "geospatial_ellipsoid");
    ("date_type", "date_type"); ("time_type", "time_type") ].

(** [geopandas.pd.HDFStore(filename, mode='a')] on the file just written. *)
Definition hdfstore_open (fs : filesystem) (filename : string)
    : result hdf_store :=
  match fs !! filename with
  | Some (HDFStore f) => Ok f
  | Some _ => Raise TypeError
  | None => Raise OSError
  end.

Definition write_pytables (fs : filesystem) (df : DataFrame)
    (filename : string) (attributes : list (string * schema_value))
    (kw : kwargs) : result filesystem :=
  (* df.to_hdf(filename, 'sliderule_segments', format="table", mode="w") *)
  let fs := <[filename := HDFStore {| hs_frames := [("sliderule_segments", df)];
                                      hs_attrs := ∅ |}]> fs in
  fileID ← hdfstore_open fs filename;
  attrs ← add_globals attributes pytables_global_names (hs_attrs fileID);
  let attrs := add_parameters pytables kw attrs in
  let attrs := add_regions kw attrs in
  Ok (<[filename := HDFStore {| hs_frames := hs_frames fileID;
                                hs_attrs := attrs |}]> fs).

(** [fileID.create_dataset(key, val.shape, data=val, dtype=val.dtype,
    compression='gzip')] *)
Definition create_dataset (val : ndarray) : h5_dataset :=
  {| ds_data := val; ds_compression := "gzip"; ds_scales := []; ds_attrs := ∅ |}.

(** [ds.dims[0].attach_scale(scale)] *)
Definition attach_scale (ds : h5_dataset) (scale : string) : h5_dataset :=
  {| ds_data := ds_data ds; ds_compression := ds_compression ds;
     ds_scales := ds_scales ds ++ [scale]; ds_attrs := ds_attrs ds |}.

(** [ds.attrs[att_key] = att_val] for each item of a schema entry. *)
Definition ds_set_attrs (ds : h5_dataset) (items : list (string * pyval))
    : h5_dataset :=
  foldl (λ ds '(att_key, att_val),
           {| ds_data := ds_data ds; ds_compression := ds_compression ds;
              ds_scales := ds_scales ds;
              ds_attrs := <[att_key := att_val]> (ds_attrs ds) |})
    ds items.

(** The dataset of a column other than [delta_time]: compressed, scaled
    by [delta_time], with the attributes of the schema's entry. *)
Definition h5_dataset_of (attributes : list (string * schema_value))
    (key : string) (val : ndarray) : result h5_dataset :=
  let ds := attach_scale (create_dataset val) "delta_time" in
  items ← attributes_items attributes key;
  Ok (ds_set_attrs ds items).

(** One turn of the loop over [df.items()]. *)
Definition h5_write_column (attributes : list (string * schema_value))
    (fileID : h5_file) (kv : string * ndarray) : result h5_file :=
  if String.eqb kv.1 "delta_time" then Ok fileID
  else
    ds ← h5_dataset_of attributes kv.1 kv.2;
    Ok {| h5_datasets := <[kv.1 := ds]> (h5_datasets fileID);
          h5_attrs := h5_attrs fileID |}.

Definition write_h5py (fs : filesystem) (df : DataFrame) (filename : string)
    (attributes : list (string * schema_value)) (kw : kwargs)
    : result filesystem :=
  let key := "delta_time" in
  val ← df_getitem df key;
  items ← attributes_items attributes key;
  let fileID := {| h5_datasets := {[ key := ds_set_attrs (create_dataset val) items ]};
                   h5_attrs := ∅ |} in
  fileID ← foldM (h5_write_column attributes) fileID (df_columns df);
  attrs ← add_globals attributes nc_global_names (h5_attrs fileID);
  let attrs := add_parameters h5py kw attrs in
  let attrs := add_regions kw attrs in
  Ok (<[filename := H5File {| h5_datasets := h5_datasets fileID;
                              h5_attrs := attrs |}]> fs).

Definition to_hdf (fs : filesystem) (gdf : GeoDataFrame) (filename : string)
    (kw : kwargs) : result filesystem :=
  let driver := default "pytables" (kw_driver kw) in
  let attributes := get_attributes (now_isoformat R) in
  let df := flatten_geometry gdf in
  if String.eqb (lower driver) "pytables" then
    write_pytables fs df filename attributes kw
  else if String.eqb (lower driver) "h5py" then
    write_h5py fs df filename attributes kw
  else Ok fs.

(** *** The output wrapper (lines 437-441) *)
Definition to_file (fs : filesystem) (gdf : GeoDataFrame) (filename : string)
    (format : string) (kw : kwargs) : result filesystem :=
  if str_in (lower format) ["hdf"; "hdf5"; "h5"] then
    to_hdf fs gdf filename kw
  else if str_in (lower format) ["netcdf"; "nc"] then
    to_nc fs gdf filename kw
  else Ok fs.
End writers.

(** ** Readers *)

(** Lines 238-254 and 418-434, the same in both readers: the time column
    from [delta_time], the geometry from the two coordinate variables, the
    frame of the other variables, indexed and sorted by time. *)
Definition time_column (delta_time : ndarray) : list time64 :=
  datetime_add atlas_sdp_epoch ∘ to_timedelta64_ns <$> arr_items delta_time.

Definition assemble (nc : list (string * ndarray)) : result GeoDataFrame :=
  delta_time ← dict_getitem "delta_time" nc;
  let time := time_column delta_time in
  x ← dict_getitem "longitude" nc;
  y ← dict_getitem "latitude" nc;
  geometry ← points_from_xy x y;
  let nc := dict_del "latitude" (dict_del "longitude" nc) in
  df ← DataFrame_of_dict (length time) (dict_del "time" nc);
  gdf ← GeoDataFrame_of df geometry;
  Ok (sort_index (set_time_index time gdf)).

(** [scipy.io.netcdf.netcdf_file(filename, 'r', version=2)] *)
Definition netcdf_open (fs : filesystem) (filename : string) : result netcdf_file :=
  match fs !! filename with
  | Some (NetCDF f) => Ok f
  | Some _ => Raise TypeError
  | None => Raise OSError
  end.

(** The classic reader (lines 221-254): each variable is squeezed and
    brought to native byte order, then the table is assembled. *)
Definition nc_unpack (val : netcdf_variable) : ndarray :=
  let flattened := squeeze (nv_data val) in
  match arr_order flattened with
  | BigEndian => byteswap_newbyteorder flattened
  | _ => copy flattened
  end.

Definition from_nc (fs : filesystem) (filename : string) : result GeoDataFrame :=
  fileID ← netcdf_open fs filename;
  let nc := dict_map nc_unpack (nc_variables fileID) in
  assemble nc.

(** [geopandas.pd.read_hdf(filename)]: the one frame of the store. *)
Definition read_hdf (fs : filesystem) (filename : string) : result DataFrame :=
  store ← hdfstore_open fs filename;
  match hs_frames store with
  | [(_, df)] => Ok df
  | _ => Raise ValueError
  end.

(** Variant A (lines 397-405). *)
Definition read_pytables (fs : filesystem) (filename : string)
    : result GeoDataFrame :=
  df ← read_hdf fs filename;
  x ← df_getitem df "longitude";
  y ← df_getitem df "latitude";
  geometry ← points_from_xy x y;
  GeoDataFrame_of (df_drop df ["latitude"; "longitude"]) geometry.

(** [h5py.File(filename, mode='r')] *)
Definition h5_open (fs : filesystem) (filename : string) : result h5_file :=
  match fs !! filename with
  | Some (H5File f) => Ok f
  | Some _ => Raise TypeError
  | None => Raise OSError
  end.

(** Variant B (lines 408-434). The order in which a group lists its
    members plays no part below; [map_to_list] fixes one. *)
Definition read_h5py (fs : filesystem) (filename : string) : result GeoDataFrame :=
  fileID ← h5_open fs filename;
  let h5 := dict_map (λ val, squeeze (ds_data val))
              (map_to_list (h5_datasets fileID)) in
  assemble h5.

(** Lines 384-394; no branch for another driver, so no value then. *)
Definition from_hdf (fs : filesystem) (filename : string) (kw : kwargs)
    : result (option GeoDataFrame) :=
  let driver := default "pytables" (kw_driver kw) in
  if String.eqb (lower driver) "pytables" then
    gdf ← read_pytables fs filename; Ok (Some gdf)
  else if String.eqb (lower driver) "h5py" then
    gdf ← read_h5py fs filename; Ok (Some gdf)
  else Ok None.

(** The input wrapper (lines 444-448). *)
Definition from_file (fs : filesystem) (filename : string) (format : string)
    (kw : kwargs) : result (option GeoDataFrame) :=
  if str_in (lower format) ["hdf"; "hdf5"; "h5"] then
    from_hdf fs filename kw
  else if str_in (lower format) ["netcdf"; "nc"] then
    gdf ← from_nc fs filename; Ok (Some gdf)
  else Ok None.

(** ** A concrete runtime and concrete tables *)

(** The variable types of the classic container as scipy has them: no
    64-bit integer and no unsigned integer. *)
Definition scipy_types (dt : dtype) : bool :=
  match dt with int8 | int16 | int32 | float64 => true | _ => false end.

(** A runtime in which h5py refuses [None] as an attribute value. *)
Definition cpython : runtime :=
  {| now_isoformat := "2021-10-01T12:00:00";
     nc_has_type := scipy_types;
     takes_attr := λ b v, match b, v with h5py, PyNone => false | _, _ => true end |}.

Definition two_points : list Point :=
  [ {| point_x := 1.5%float; point_y := 2.5%float |};
    {| point_x := (-3)%float; point_y := 4%float |} ].

(** Two rows, the later one first, with two unsigned columns. *)
Definition two_rows : GeoDataFrame :=
  {| gdf_frame :=
       {| df_index := DatetimeIndex [Nanos 7; Nanos 3];
          df_columns :=
            [ ("delta_time", array float64 [SFloat 86400%float; SFloat 0%float]);
              ("segment_id", array uint32 [SInt 5; SInt 300000]);
              ("spot", array uint8 [SInt 1; SInt 6]) ] |};
     gdf_geometry := two_points |}.

(** The same with a segment number past the signed 32-bit range. *)
Definition two_rows_wide : GeoDataFrame :=
  {| gdf_frame :=
       {| df_index := DatetimeIndex [Nanos 7; Nanos 3];
          df_columns :=
            [ ("delta_time", array float64 [SFloat 86400%float; SFloat 0%float]);
              ("segment_id", array uint32 [SInt 5; SInt 3000000000]) ] |};
     gdf_geometry := two_points |}.



(** One row. *)
Definition one_row : GeoDataFrame :=
  {| gdf_frame :=
       {| df_index := DatetimeIndex [Nanos 3];
          df_columns := [ ("delta_time", array float64 [SFloat 0%float]) ] |};
     gdf_geometry := [ {| point_x := 1.5%float; point_y := 2.5%float |} ] |}.

Definition triangle (x0 : float) : list region_point :=
  [ {| lon := x0; lat := 70%float |};
    {| lon := PrimFloat.add x0 1%float; lat := 71%float |};
    {| lon := PrimFloat.add x0 2%float; lat := 70.5%float |} ].

(** Four of the ten parameters, one name that is none of them, and two
    regions of three points. *)
Definition four_parameters : kwargs :=
  {| kw_driver := Some "h5py";
     kw_parameters := Some {[ "cnf" := PyInt 4; "len" := PyFloat 40%float;
                              "res" := PyFloat 20%float; "srt" := PyInt 3;
                              "asset" := PyStr "nsidc-s3" ]};
     kw_regions := [ triangle (-108)%float; triangle 10%float ];
     kw_verbose := false |}.

(** Two rows indexed by the time of their [delta_time], the later one
    first, with a segment number past the signed 32-bit range. *)
Definition late_first : GeoDataFrame :=
  {| gdf_frame :=
       {| df_index := DatetimeIndex [Nanos 1514851200000000000;
                                     Nanos 1514764800000000000];
          df_columns :=
            [ ("delta_time", array float64 [SFloat 86400%float; SFloat 0%float]);
              ("segment_id", array uint32 [SInt 5; SInt 3000000000]) ] |};
     gdf_geometry := two_points |}.

(** The keyword arguments that name a driver and nothing else. *)
Definition with_driver (driver : string) : kwargs :=
  {| kw_driver := Some driver; kw_parameters := None; kw_regions := [];
     kw_verbose := false |}.

(** Those that select Variant B. *)
Definition with_h5py : kwargs := with_driver "h5py".

(** A classic file of two rows that holds the elapsed time and nothing
    else. *)
Definition time_only : netcdf_file :=
  {| nc_dimensions := [("delta_time", 2%nat)];
     nc_variables :=
       [ ("delta_time",
          {| nv_dimensions := ["delta_time"];
             nv_data := NDArray float64 BigEndian [2%nat]
                          [SFloat 0%float; SFloat 86400%float];
             nv_attrs := ∅ |}) ];
     nc_attrs := ∅ |}.

(** Two rows with a column of their own under the name latitude. *)
Definition two_rows_latitude : GeoDataFrame :=
  {| gdf_frame :=
       {| df_index := DatetimeIndex [Nanos 3; Nanos 7];
          df_columns :=
            [ ("latitude", array float64 [SFloat 45%float; SFloat 46%float]);
              ("delta_time", array float64 [SFloat 0%float; SFloat 86400%float]) ] |};
     gdf_geometry := two_points |}.

(** Two rows with a column of 64-bit integers. *)
Definition two_rows_int64 : GeoDataFrame :=
  {| gdf_frame :=
       {| df_index := DatetimeIndex [Nanos 3; Nanos 7];
          df_columns :=
            [ ("delta_time", array float64 [SFloat 0%float; SFloat 86400%float]);
              ("cycle", array int64 [SInt 12; SInt 12]) ] |};
     gdf_geometry := two_points |}.

(** Two rows, the first with an elapsed time that is not a number. *)
Definition two_rows_nan : GeoDataFrame :=
  {| gdf_frame :=
       {| df_index := RangeIndex 2;
          df_columns :=
            [ ("delta_time", array float64 [SFloat nan; SFloat 0%float]) ] |};
     gdf_geometry := two_points |}.

(** ** What a reader of the schema and of a written file sees *)

(** The meanings of a flag attribute, which separates them by a comma and
    a space. *)
Fixpoint split_meanings (cur : string) (s : string) : list string :=
  match s with
  | EmptyString => [cur]
  | String c s' =>
      match c, s' with
      | ","%char, String " "%char s'' => cur :: split_meanings "" s''
      | _, _ => split_meanings (cur +:+ String c "") s'
      end
  end.

(** The flag values of a variable's entry paired with their meanings. *)
Definition flag_table (attributes : list (string * schema_value)) (key : string)
    : option (list (Z * string)) :=
  match dict_get key attributes with
  | Some (Entry d) =>
      match dict_get "flag_values" d, dict_get "flag_meanings" d with
      | Some (PyInts values), Some (PyStr meanings) =>
          Some (zip values (split_meanings "" meanings))
      | _, _ => None
      end
  | _ => None
  end.

(** The names that have a per-variable entry, in the order of the schema. *)
Definition schema_variables (attributes : list (string * schema_value))
    : list string :=
  omap (λ kv, match kv.2 with Entry _ => Some kv.1 | Global _ => None end)
    attributes.

(** The file-level attributes of a container. *)
Definition container_attrs (c : container) : gmap string pyval :=
  match c with
  | NetCDF f => nc_attrs f
  | HDFStore f => hs_attrs f
  | H5File f => h5_attrs f
  end.

Definition container_backend (c : container) : backend :=
  match c with
  | NetCDF _ => scipy_netcdf
  | HDFStore _ => pytables
  | H5File _ => h5py
  end.


(** The stored array of the variable or dataset [key]. *)
Definition variable_data (c : container) (key : string) : option ndarray :=
  match c with
  | NetCDF f => nv_data <$> dict_get key (nc_variables f)
  | H5File f => ds_data <$> h5_datasets f !! key
  | HDFStore _ => None
  end.

(** The driver a call uses: the default of [kwargs.setdefault]. *)
Definition driver_of (kw : kwargs) : string := default "pytables" (kw_driver kw).

(** The value the loop over [SRparams] leaves for [p]: the one given, when
    there is one and the container takes it. *)
Definition selected (R : runtime) (b : backend) (kw : kwargs) (p : string)
    : option pyval :=
  match kw_parameters kw with
  | Some d =>
      match d !! p with
      | Some v => if takes_attr R b v then Some v else None
      | None => None
      end
  | None => None
  end.

Definition without_parameters (kw : kwargs) : kwargs :=
  {| kw_driver := kw_driver kw; kw_parameters := None;
     kw_regions := kw_regions kw; kw_verbose := kw_verbose kw |}.

(** The writer and reader pair a format token and the keyword arguments
    select, as the two wrappers and the two hierarchical dispatchers
    decide it; [None] when they select none. *)
Inductive route := Classic | VariantA | VariantB.

Definition route_of (format : string) (kw : kwargs) : option route :=
  if str_in (lower format) ["hdf"; "hdf5"; "h5"] then
    if String.eqb (lower (driver_of kw)) "pytables" then Some VariantA
    else if String.eqb (lower (driver_of kw)) "h5py" then Some VariantB
    else None
  else if str_in (lower format) ["netcdf"; "nc"] then Some Classic
  else None.

(** The names of the file-level attributes copied from the schema. *)
Definition global_names : list string :=
  [ "featureType"; "title"; "TITLE"; "reference"; "date_created";
    "geospatial_lat_units"; "geospatial_lon_units"; "geospatial_ellipsoid";
    "date_type"; "time_type" ].

(** The file system a write leaves when it completes. *)
Definition written (m : result filesystem) : filesystem :=
  match m with Ok fs => fs | Raise _ => ∅ end.

(** The array the classic writer stores for a column. *)
Definition nc_cast (val : ndarray) : ndarray :=
  if is_unsigned (arr_dtype val) then astype_int32 val else copy val.

(** The order of the rows while they are sorted: by their index value. *)
Definition row_le (a b : time64 * nat) : Prop := time_le a.1 b.1.

(** The variables of a file that end up as columns of the table read from
    it: all but the coordinates, and but a variable named like the index or
    the geometry. *)
Definition kept_columns (nc : list (string * ndarray)) : list (string * ndarray) :=
  dict_del "geometry"
    (dict_del "time" (dict_del "latitude" (dict_del "longitude" nc))).

(** The points of two coordinate arrays. *)
Definition points (x y : ndarray) : list Point :=
  zip_with (λ a b, {| point_x := scalar_to_float a; point_y := scalar_to_float b |})
    (arr_items x) (arr_items y).

(** The table of the rows [σ] of the variables [nc], in that order. *)
Definition rows_of (σ : list nat) (nc : list (string * ndarray))
    (delta_time x y : ndarray) : GeoDataFrame :=
  {| gdf_frame :=
       {| df_index := DatetimeIndex (take σ (time_column delta_time));
          df_columns := dict_map (array_take σ) (kept_columns nc) |};
     gdf_geometry := take σ (points x y) |}.

(** The table a read returns. *)
Definition returned (m : result (option GeoDataFrame)) : GeoDataFrame :=
  match m with
  | Ok (Some gdf) => gdf
  | _ => {| gdf_frame := {| df_index := RangeIndex 0; df_columns := [] |};
            gdf_geometry := [] |}
  end.



(** A column name that has an entry in the schema and is not one of the
    two coordinate names. *)
Definition schema_column (key : string) : Prop :=
  key ∈ schema_variables (get_attributes "") ∧ key ≠ "latitude" ∧ key ≠ "longitude".

#[global] Instance schema_column_dec key : Decision (schema_column key).
Proof. unfold schema_column. apply _. Defined.

(** The two coordinate arrays of a table's geometry. *)
Definition longitude_of (gdf : GeoDataFrame) : ndarray :=
  array float64 (SFloat ∘ point_x <$> gdf_geometry gdf).
Definition latitude_of (gdf : GeoDataFrame) : ndarray :=
  array float64 (SFloat ∘ point_y <$> gdf_geometry gdf).

(** ** What the files hold, for the properties of their layout *)

(** An array declared in the byte order [o], with the same values. *)
Definition with_order (o : byteorder) (a : ndarray) : ndarray :=
  NDArray (arr_dtype a) (order_of o (arr_dtype a)) (arr_shape a) (arr_items a).

(** A classic file whose variables all hold their data in the byte
    order [o]. *)
Definition stored_as (o : byteorder) (f : netcdf_file) : netcdf_file :=
  {| nc_dimensions := nc_dimensions f;
     nc_variables :=
       dict_map (λ v, {| nv_dimensions := nv_dimensions v;
                         nv_data := with_order o (nv_data v);
                         nv_attrs := nv_attrs v |})
         (nc_variables f);
     nc_attrs := nc_attrs f |}.

(** The array a container holds under the name [key]: a variable, a
    dataset, or a column of the one stored frame. *)
Definition stored_column (c : container) (key : string) : option ndarray :=
  match c with
  | NetCDF f => nv_data <$> dict_get key (nc_variables f)
  | H5File f => ds_data <$> h5_datasets f !! key
  | HDFStore f =>
      match hs_frames f with
      | [(_, df)] => dict_get key (df_columns df)
      | _ => None
      end
  end.


(** The keyword arguments with the driver named in lower case. *)
Definition lower_driver (kw : kwargs) : kwargs :=
  {| kw_driver := Some (lower (driver_of kw));
     kw_parameters := kw_parameters kw;
     kw_regions := kw_regions kw;
     kw_verbose := kw_verbose kw |}.

(** The route that reads a container. *)
Definition container_route (c : container) : route :=
  match c with
  | NetCDF _ => Classic
  | HDFStore _ => VariantA
  | H5File _ => VariantB
  end.

(** A container whose reader gets as far as the coordinates: a store of
    one frame, or a file with a [delta_time] variable. *)
Definition reaches_coordinates (c : container) : Prop :=
  match c with
  | HDFStore f => ∃ key df, hs_frames f = [(key, df)]
  | NetCDF _ | H5File _ => is_Some (stored_column c "delta_time")
  end.

(** * Proofs *)

(** ** The error monad *)

Lemma bind_Ok {A B} (m : result A) (f : A → result B) (b : B) :
  m ≫= f = Ok b ↔ ∃ a, m = Ok a ∧ f a = Ok b.
Proof.
  destruct m as [a|e]; simpl; split.
  - eauto.
  - intros (a' & [= <-] & ?); done.
  - done.
  - intros (a' & [=] & _).
Qed.

Lemma bind_Raise {A B} (m : result A) (f : A → result B) (e : exn) :
  m = Raise e → m ≫= f = Raise e.
Proof. by intros ->. Qed.

(** Unfolds one successful bind of a hypothesis [H : _ ≫= _ = Ok _]. *)
Ltac bind_inv H :=
  let a := fresh "a" in
  let Ha := fresh "Ha" in
  apply bind_Ok in H as (a & Ha & H).

Lemma foldM_app {A B} (f : B → A → result B) b l1 l2 :
  foldM f b (l1 ++ l2) = foldM f b l1 ≫= λ b', foldM f b' l2.
Proof.
  revert b. induction l1 as [|a l1 IH]; intros b; simpl; [done|].
  destruct (f b a) as [b'|e]; simpl; [apply IH|done].
Qed.


(** ** Dictionaries *)

Section dict_facts.
Context {A : Type}.
Implicit Types (d : list (string * A)) (k : string) (v : A).

Lemma dict_get_elem_of k v d : dict_get k d = Some v → (k, v) ∈ d.
Proof.
  induction d as [|[k' v'] d IH]; simpl; [done|].
  destruct (String.eqb_spec k k') as [->|Hne].
  - intros [= ->]. apply elem_of_cons; by left.
  - intros H. apply elem_of_cons; right; by apply IH.
Qed.

Lemma dict_get_None k d : dict_get k d = None ↔ k ∉ dict_keys d.
Proof.
  unfold dict_keys. induction d as [|[k' v'] d IH]; simpl.
  - split; [intros _; apply not_elem_of_nil|done].
  - rewrite not_elem_of_cons. destruct (String.eqb_spec k k') as [->|Hne].
    + split; [done|intros [? _]; done].
    + rewrite IH. tauto.
Qed.


Lemma dict_get_NoDup k v d :
  NoDup (dict_keys d) → (k, v) ∈ d → dict_get k d = Some v.
Proof.
  unfold dict_keys. induction d as [|[k' v'] d IH]; simpl; intros Hnd Hin.
  - by apply elem_of_nil in Hin.
  - apply NoDup_cons in Hnd as [Hk' Hnd].
    apply elem_of_cons in Hin as [[= -> ->]|Hin].
    + by rewrite String.eqb_refl.
    + destruct (String.eqb_spec k k') as [->|Hne]; [|by apply IH].
      exfalso. apply Hk'. apply list_elem_of_fmap. by exists (k', v).
Qed.

Lemma dict_get_app k d1 d2 :
  dict_get k (d1 ++ d2)
  = match dict_get k d1 with Some v => Some v | None => dict_get k d2 end.
Proof.
  induction d1 as [|[k' v'] d1 IH]; simpl; [done|].
  by destruct (String.eqb k k').
Qed.

Lemma dict_setitem_fresh k v d :
  k ∉ dict_keys d → dict_setitem k v d = d ++ [(k, v)].
Proof.
  unfold dict_keys. induction d as [|[k' v'] d IH]; simpl; [done|].
  rewrite not_elem_of_cons. intros [Hne Hk].
  destruct (String.eqb_spec k k') as [->|_]; [done|]. by rewrite IH.
Qed.

Lemma dict_setitem_keys k v d :
  dict_keys (dict_setitem k v d)
  = if decide (k ∈ dict_keys d) then dict_keys d else dict_keys d ++ [k].
Proof.
  unfold dict_keys. induction d as [|[k' v'] d IH]; [done|].
  cbn [dict_setitem]. destruct (String.eqb_spec k k') as [->|Hne].
  - rewrite decide_True; [done|]. rewrite fmap_cons. apply elem_of_cons; by left.
  - rewrite !fmap_cons, IH. cbn [fst].
    destruct (decide (k ∈ d.*1)) as [Hin|Hin].
    + rewrite decide_True; [done|]. apply elem_of_cons; by right.
    + rewrite decide_False; [done|]. by apply not_elem_of_cons.
Qed.

Lemma dict_setitem_NoDup k v d :
  NoDup (dict_keys d) → NoDup (dict_keys (dict_setitem k v d)).
Proof.
  intros Hnd. rewrite dict_setitem_keys. case_decide; [done|].
  apply NoDup_app. split_and!; [done| |apply NoDup_singleton].
  intros x Hx Hx'. apply list_elem_of_singleton in Hx' as ->. done.
Qed.

Lemma dict_get_setitem k k' v d :
  dict_get k (dict_setitem k' v d)
  = if decide (k = k') then Some v else dict_get k d.
Proof.
  induction d as [|[k'' v''] d IH]; simpl.
  - destruct (String.eqb_spec k k'); by case_decide.
  - destruct (String.eqb_spec k' k'') as [->|Hne]; simpl.
    + destruct (String.eqb_spec k k''); by case_decide.
    + rewrite IH. destruct (String.eqb_spec k k'') as [->|?]; [|done].
      by rewrite decide_False.
Qed.



Lemma dict_get_del k k' d :
  dict_get k (dict_del k' d) = if decide (k = k') then None else dict_get k d.
Proof.
  induction d as [|[k'' v''] d IH]; simpl; [by case_decide|].
  destruct (String.eqb_spec k' k'') as [->|Hne]; simpl.
  - rewrite IH. case_decide as Hk; [done|].
    destruct (String.eqb_spec k k''); done.
  - destruct (String.eqb_spec k k'') as [->|?]; [by rewrite decide_False|done].
Qed.

Lemma dict_del_keys k d :
  dict_keys (dict_del k d) = filter (λ k', k' ≠ k) (dict_keys d).
Proof.
  unfold dict_keys. induction d as [|[k' v'] d IH]; [done|].
  cbn [dict_del]. rewrite fmap_cons. cbn [fst].
  destruct (String.eqb_spec k k') as [->|Hne].
  - rewrite filter_cons_False by (intros H; by apply H). done.
  - rewrite filter_cons_True by congruence.
    rewrite fmap_cons. cbn [fst]. by rewrite IH.
Qed.
End dict_facts.

Lemma dict_get_map {A B} (f : A → B) k (d : list (string * A)) :
  dict_get k (dict_map f d) = f <$> dict_get k d.
Proof.
  unfold dict_map. induction d as [|[k' v'] d IH]; simpl; [done|].
  by destruct (String.eqb k k').
Qed.


Lemma dict_del_map {A B} (f : A → B) k (d : list (string * A)) :
  dict_del k (dict_map f d) = dict_map f (dict_del k d).
Proof.
  unfold dict_map. induction d as [|[k' v'] d IH]; [done|].
  rewrite fmap_cons. cbn [dict_del prod_map fst snd id].
  destruct (String.eqb k k'); [done|]. rewrite fmap_cons. by rewrite IH.
Qed.

Lemma dict_map_map {A B C} (f : A → B) (g : B → C) (d : list (string * A)) :
  dict_map g (dict_map f d) = dict_map (g ∘ f) d.
Proof.
  unfold dict_map. rewrite <- list_fmap_compose.
  apply list_fmap_ext. by intros _ [k v] _.
Qed.

Lemma str_in_elem_of (s : string) (l : list string) :
  str_in s l = true ↔ s ∈ l.
Proof.
  unfold str_in. rewrite existsb_exists. split.
  - intros (x & Hx & Heq). apply String.eqb_eq in Heq as ->.
    by apply list_elem_of_In.
  - intros Hin. exists s. split; [by apply list_elem_of_In|apply String.eqb_refl].
Qed.

Lemma str_in_false (s : string) (l : list string) :
  s ∉ l → str_in s l = false.
Proof.
  intros Hs. destruct (str_in s l) eqn:E; [|done].
  by apply str_in_elem_of in E.
Qed.

(** ** The attribute schema *)

(** C9. Whatever the clock reads, [get_attributes] has a per-variable entry
    for each canonical variable the specification names (segment id,
    elapsed time, latitude, longitude, mean height, height uncertainty, fit
    RMS, along- and across-track slope, fit photon count, surface window
    width, robust spread, orbit cycle, reference ground track, ground-track
    id, spot number, processing flags), and for no other name; the
    ground-track entry pairs the flag values 10, 20, 30, 40, 50, 60 with
    GT1L, GT1R, GT2L, GT2R, GT3L, GT3R in that order, and the
    processing-flag entry pairs 0, 1, 2, 4 with valid, spread too short, too
    few photons, max iterations reached. *)
Theorem get_attributes_schema (now : string) :
  schema_variables (get_attributes now)
  = [ "segment_id"; "delta_time"; "latitude"; "longitude"; "h_mean";
      "h_sigma"; "rms_misfit"; "dh_fit_dx"; "dh_fit_dy"; "n_fit_photons";
      "w_surface_window_final"; "h_robust_sprd"; "cycle"; "rgt"; "gt";
      "spot"; "pflags" ]
  ∧ (∀ key, key ∈ schema_variables (get_attributes now) →
       ∃ d, dict_get key (get_attributes now) = Some (Entry d))
  ∧ flag_table (get_attributes now) "gt"
    = Some [ (10, "GT1L"); (20, "GT1R"); (30, "GT2L"); (40, "GT2R");
             (50, "GT3L"); (60, "GT3R") ]
  ∧ flag_table (get_attributes now) "pflags"
    = Some [ (0, "valid"); (1, "spread too short"); (2, "too few photons");
             (4, "max iterations reached") ].
Proof.
  split_and!; try reflexivity.
  intros key Hkey. cbn in Hkey.
  repeat (apply elem_of_cons in Hkey as [->|Hkey]); try (eexists; reflexivity).
  by apply elem_of_nil in Hkey.
Qed.

(** ** The format dispatchers *)

(** Membership of a literal list, and its failure. *)
Ltac in_list := rewrite ?elem_of_cons; tauto.
Ltac not_in_list H :=
  repeat (apply elem_of_cons in H as [H|H]; [discriminate H|]);
  by apply elem_of_nil in H.

(** C6. A format token that, in lower case, is none of hdf, hdf5, h5,
    netcdf, nc, or a driver token on the hierarchical path that is neither
    pytables nor h5py, makes [to_file] (and [to_hdf]) leave the file system
    as it was and [from_file] (and [from_hdf]) return no value; nothing is
    raised. *)
Theorem unsupported_token_is_no_op R fs gdf filename format kw :
  lower format ∉ ["hdf"; "hdf5"; "h5"; "netcdf"; "nc"]
  ∨ (lower format ∈ ["hdf"; "hdf5"; "h5"]
     ∧ lower (driver_of kw) ∉ ["pytables"; "h5py"]) →
  to_file R fs gdf filename format kw = Ok fs
  ∧ from_file fs filename format kw = Ok None
  ∧ (lower (driver_of kw) ∉ ["pytables"; "h5py"] →
     to_hdf R fs gdf filename kw = Ok fs ∧ from_hdf fs filename kw = Ok None).
Proof.
  assert (Hdrv : lower (driver_of kw) ∉ ["pytables"; "h5py"] →
            to_hdf R fs gdf filename kw = Ok fs ∧ from_hdf fs filename kw = Ok None).
  { intros Hd. unfold to_hdf, from_hdf. fold (driver_of kw).
    rewrite !not_elem_of_cons in Hd. destruct Hd as (H1 & H2 & _).
    apply String.eqb_neq in H1, H2. by rewrite H1, H2. }
  intros [Hfmt|[Hfmt Hd]]; unfold to_file, from_file.
  - assert (str_in (lower format) ["hdf"; "hdf5"; "h5"] = false) as ->.
    { apply str_in_false. intros H. apply Hfmt. revert H. in_list. }
    assert (str_in (lower format) ["netcdf"; "nc"] = false) as ->.
    { apply str_in_false. intros H. apply Hfmt. revert H. in_list. }
    done.
  - apply str_in_elem_of in Hfmt as ->. destruct (Hdrv Hd) as [-> ->]. done.
Qed.

Lemma unsupported_token_witness :
  (to_file cpython ∅ two_rows "out.csv" "CSV" no_kwargs = Ok ∅
   ∧ from_file ∅ "out.csv" "CSV" no_kwargs = Ok None)
  ∧ (to_file cpython ∅ two_rows "out.h5" "HDF5" (with_driver "netCDF4") = Ok ∅
     ∧ from_file ∅ "out.h5" "HDF5" (with_driver "netCDF4") = Ok None
     ∧ to_hdf cpython ∅ two_rows "out.h5" (with_driver "netCDF4") = Ok ∅
     ∧ from_hdf ∅ "out.h5" (with_driver "netCDF4") = Ok None).
Proof.
  split.
  - destruct (unsupported_token_is_no_op cpython ∅ two_rows "out.csv" "CSV"
                no_kwargs) as (Hw & Hr & _); [|by split].
    left. vm_compute. intros H. not_in_list H.
  - assert (lower (driver_of (with_driver "netCDF4")) ∉ ["pytables"; "h5py"])
      as Hd by (vm_compute; intros H; not_in_list H).
    destruct (unsupported_token_is_no_op cpython ∅ two_rows "out.h5" "HDF5"
                (with_driver "netCDF4")) as (Hw & Hr & Hhdf).
    + right. split; [|exact Hd].
      assert (lower "HDF5" = "hdf5") as -> by reflexivity. in_list.
    + destruct (Hhdf Hd) as [Hw' Hr']. by split_and!.
Defined.

(** ** Names and values of the file-level attributes *)

Lemma string_length_append (s t : string) :
  String.length (s +:+ t) = (String.length s + String.length t)%nat.
Proof.
  induction s as [|c s IH]; [done|].
  change (S (String.length (s +:+ t)) = S (String.length s + String.length t)).
  by rewrite IH.
Qed.

Lemma append_inv_suffix (s1 s2 t1 t2 : string) :
  String.length t1 = String.length t2 →
  s1 +:+ t1 = s2 +:+ t2 → s1 = s2 ∧ t1 = t2.
Proof.
  intros Hlen. revert s2. induction s1 as [|c s1 IH]; intros [|c' s2] H.
  - done.
  - change (t1 = String c' (s2 +:+ t2)) in H. subst t1.
    cbn [String.length] in Hlen. rewrite string_length_append in Hlen. lia.
  - change (String c (s1 +:+ t1) = t2) in H. subst t2.
    cbn [String.length] in Hlen. rewrite string_length_append in Hlen. lia.
  - change (String c (s1 +:+ t1) = String c' (s2 +:+ t2)) in H.
    injection H as -> H. destruct (IH _ H) as [-> ->]. done.
Qed.

Lemma poly_x_inj i j : poly_x i = poly_x j → i = j.
Proof.
  unfold poly_x. intros H. apply (inj (String.append "poly")) in H.
  apply append_inv_suffix in H as [H _]; [|done].
  by apply (inj pretty) in H.
Qed.

Lemma poly_y_inj i j : poly_y i = poly_y j → i = j.
Proof.
  unfold poly_y. intros H. apply (inj (String.append "poly")) in H.
  apply append_inv_suffix in H as [H _]; [|done].
  by apply (inj pretty) in H.
Qed.

Lemma poly_x_y i j : poly_x i ≠ poly_y j.
Proof.
  unfold poly_x, poly_y. intros H. apply (inj (String.append "poly")) in H.
  apply append_inv_suffix in H as [_ H]; [|done]. discriminate H.
Qed.

Lemma poly_x_head i : ∃ s, poly_x i = String "p" s.
Proof. unfold poly_x. simpl. eauto. Qed.
Lemma poly_y_head i : ∃ s, poly_y i = String "p" s.
Proof. unfold poly_y. simpl. eauto. Qed.


Lemma coordinates_fold (l : list region_point) : ∀ (px py : list float),
  length px = length py →
  foldl (λ '(x, y) '(i, p), (<[i := lon p]> x, <[i := lat p]> y))
    (px ++ zeros (length l), py ++ zeros (length l))
    (zip (seq (length px) (length l)) l)
  = (px ++ (lon <$> l), py ++ (lat <$> l)).
Proof.
  induction l as [|p l IH]; intros px py Hlen.
  { cbn. by rewrite !app_nil_r. }
  cbn [length seq zip zip_with foldl zeros replicate].
  rewrite !insert_app_r_alt by lia. rewrite <- Hlen, Nat.sub_diag. cbn [insert list_insert].
  rewrite !fmap_cons.
  rewrite (cons_middle _ px), (cons_middle _ py), !app_assoc.
  specialize (IH (px ++ [lon p]) (py ++ [lat p])).
  rewrite !length_app in IH. simpl in IH. rewrite Nat.add_1_r in IH.
  unfold zeros in IH. rewrite IH by lia. by rewrite <- !app_assoc.
Qed.

Lemma coordinates_spec (polygon : list region_point) :
  coordinates polygon = (lon <$> polygon, lat <$> polygon).
Proof. apply (coordinates_fold polygon [] []). done. Qed.

Lemma enumerate_snoc {A} (l : list A) (x : A) :
  enumerate (l ++ [x]) = enumerate l ++ [(length l, x)].
Proof.
  unfold enumerate. rewrite length_app, seq_app. simpl.
  rewrite zip_with_app by (by rewrite length_seq). done.
Qed.

(** Two attribute names of the regions differ. *)
Ltac poly_ne :=
  let H := fresh in
  intros H;
  first [ by apply poly_x_y in H
        | symmetry in H; by apply poly_x_y in H
        | apply poly_x_inj in H; (congruence || lia)
        | apply poly_y_inj in H; (congruence || lia) ].

(** The regions' loop, read back by name. *)
Lemma foldl_set_region_x (l : list (list region_point)) attrs i poly :
  l !! i = Some poly →
  foldl set_region attrs (enumerate l) !! poly_x i = Some (PyArray (lon <$> poly))
  ∧ foldl set_region attrs (enumerate l) !! poly_y i = Some (PyArray (lat <$> poly)).
Proof.
  revert i poly. induction l as [|q l IH] using rev_ind; intros i poly Hi; [done|].
  rewrite enumerate_snoc, foldl_app. cbn [foldl set_region].
  rewrite coordinates_spec.
  destruct (decide (i = length l)) as [->|Hne].
  - rewrite list_lookup_middle in Hi by done. injection Hi as ->.
    rewrite lookup_insert_ne by poly_ne.
    by rewrite !lookup_insert_eq.
  - assert (l !! i = Some poly) as Hi'.
    { apply lookup_lt_Some in Hi as Hlt. rewrite length_app in Hlt. simpl in Hlt.
      rewrite lookup_app_l in Hi by lia. done. }
    destruct (IH _ _ Hi') as [Hx Hy].
    rewrite !lookup_insert_ne by poly_ne. done.
Qed.

Lemma foldl_set_region_other (l : list (list region_point)) attrs k :
  (∀ i, (i < length l)%nat → k ≠ poly_x i ∧ k ≠ poly_y i) →
  foldl set_region attrs (enumerate l) !! k = attrs !! k.
Proof.
  induction l as [|q l IH] using rev_ind; intros Hk; [done|].
  rewrite enumerate_snoc, foldl_app. cbn [foldl set_region].
  rewrite coordinates_spec.
  destruct (Hk (length l)) as [Hx Hy]; [rewrite length_app; simpl; lia|].
  rewrite !lookup_insert_ne by done. apply IH.
  intros i Hi. apply Hk. rewrite length_app. lia.
Qed.

Section file_attributes.
Context (R : runtime).
Implicit Types (attrs : gmap string pyval) (kw : kwargs).

Lemma set_parameter_selected b kw attrs p :
  set_parameter R b kw attrs p
  = match selected R b kw p with Some v => <[p := v]> attrs | None => attrs end.
Proof.
  unfold set_parameter, selected, parameters_getitem.
  destruct (kw_parameters kw) as [d|]; [|done].
  destruct (d !! p) as [v|]; [|done]. simpl.
  by destruct (takes_attr R b v).
Qed.

Lemma foldl_set_parameter_other b kw attrs (l : list string) k :
  k ∉ l → foldl (set_parameter R b kw) attrs l !! k = attrs !! k.
Proof.
  revert attrs. induction l as [|q l IH]; intros attrs Hk; [done|].
  apply not_elem_of_cons in Hk as [Hne Hk]. cbn [foldl].
  rewrite IH by done. rewrite set_parameter_selected.
  destruct (selected R b kw q); [by rewrite lookup_insert_ne|done].
Qed.



Lemma add_globals_lookup attributes names attrs attrs' k :
  add_globals attributes names attrs = Ok attrs' →
  k ∉ names.*1 → attrs' !! k = attrs !! k.
Proof.
  revert attrs. induction names as [|[name key] names IH]; intros attrs H Hk.
  { by injection H as <-. }
  apply not_elem_of_cons in Hk as [Hne Hk]. cbn [add_globals foldM] in H.
  bind_inv H. bind_inv Ha. injection Ha as <-.
  rewrite (IH _ H Hk). by rewrite lookup_insert_ne.
Qed.

Lemma add_globals_nc now attrs :
  is_ok (add_globals (get_attributes now) nc_global_names attrs) = true.
Proof. reflexivity. Qed.

End file_attributes.

Section written_attributes.
Context (R : runtime).

Lemma to_file_route fs gdf filename format kw :
  to_file R fs gdf filename format kw
  = match route_of format kw with
    | Some Classic => to_nc R fs gdf filename kw
    | Some VariantA =>
        write_pytables R fs (flatten_geometry gdf) filename
          (get_attributes (now_isoformat R)) kw
    | Some VariantB =>
        write_h5py R fs (flatten_geometry gdf) filename
          (get_attributes (now_isoformat R)) kw
    | None => Ok fs
    end.
Proof.
  unfold to_file, route_of, to_hdf. fold (driver_of kw).
  destruct (str_in (lower format) ["hdf"; "hdf5"; "h5"]).
  - destruct (String.eqb (lower (driver_of kw)) "pytables"); [done|].
    by destruct (String.eqb (lower (driver_of kw)) "h5py").
  - by destruct (str_in (lower format) ["netcdf"; "nc"]).
Qed.

Lemma nc_write_column_attrs attributes fileID kv fileID' :
  nc_write_column R attributes fileID kv = Ok fileID' →
  nc_attrs fileID' = nc_attrs fileID ∧ nc_dimensions fileID' = nc_dimensions fileID.
Proof.
  unfold nc_write_column. intros H.
  bind_inv H. by injection H as <-.
Qed.

Lemma nc_write_columns_attrs attributes cols fileID fileID' :
  foldM (nc_write_column R attributes) fileID cols = Ok fileID' →
  nc_attrs fileID' = nc_attrs fileID ∧ nc_dimensions fileID' = nc_dimensions fileID.
Proof.
  revert fileID. induction cols as [|kv cols IH]; intros fileID H.
  { by injection H as <-. }
  cbn [foldM] in H. bind_inv H.
  destruct (IH _ H) as [-> ->]. by apply nc_write_column_attrs in Ha.
Qed.

Lemma h5_write_columns_attrs attributes cols fileID fileID' :
  foldM (h5_write_column attributes) fileID cols = Ok fileID' →
  h5_attrs fileID' = h5_attrs fileID.
Proof.
  revert fileID. induction cols as [|kv cols IH]; intros fileID H.
  { by injection H as <-. }
  cbn [foldM] in H. bind_inv H. rewrite (IH _ H).
  unfold h5_write_column in Ha. destruct (String.eqb kv.1 "delta_time").
  - by injection Ha as <-.
  - bind_inv Ha. by injection Ha as <-.
Qed.

(** What a completed write leaves as file-level attributes: the copies of
    the schema's values, then the parameters, then the regions. *)
Lemma written_attrs fs gdf filename format kw fs' :
  route_of format kw ≠ None →
  to_file R fs gdf filename format kw = Ok fs' →
  ∃ c attrs0,
    fs' !! filename = Some c
    ∧ container_attrs c
      = add_regions kw (add_parameters R (container_backend c) kw attrs0)
    ∧ ∀ k, k ∉ global_names → attrs0 !! k = None.
Proof.
  intros Hroute. rewrite to_file_route.
  destruct (route_of format kw) as [[| |]|]; [| | |done]; clear Hroute; intros H.
  - unfold to_nc in H. bind_inv H. bind_inv H. bind_inv H. injection H as <-.
    eexists _, a1. rewrite lookup_insert_eq. split_and!; [done|done|].
    intros k Hk. rewrite (add_globals_lookup _ _ _ _ _ Ha1).
    + apply nc_write_columns_attrs in Ha0 as [-> _]. done.
    + intros Hin. apply Hk. revert Hin. unfold global_names. cbn. in_list.
  - unfold write_pytables in H. bind_inv H. bind_inv H. injection H as <-.
    unfold hdfstore_open in Ha. rewrite lookup_insert_eq in Ha. injection Ha as <-.
    eexists _, a0. rewrite lookup_insert_eq. split_and!; [done|done|].
    intros k Hk. rewrite (add_globals_lookup _ _ _ _ _ Ha0); [done|].
    intros Hin. apply Hk. revert Hin. unfold global_names. cbn. in_list.
  - unfold write_h5py in H. bind_inv H. bind_inv H. bind_inv H. bind_inv H.
    injection H as <-.
    eexists _, a2. rewrite lookup_insert_eq. split_and!; [done|done|].
    intros k Hk. rewrite (add_globals_lookup _ _ _ _ _ Ha2).
    + apply h5_write_columns_attrs in Ha1 as ->. done.
    + intros Hin. apply Hk. revert Hin. unfold global_names. cbn. in_list.
Qed.
End written_attributes.

Lemma poly_not_parameter k :
  (∃ i, k = poly_x i ∨ k = poly_y i) → (k ∉ SRparams) ∧ (k ∉ global_names).
Proof.
  intros [i [->| ->]].
  - destruct (poly_x_head i) as [s ->]. split; intros H; not_in_list H.
  - destruct (poly_y_head i) as [s ->]. split; intros H; not_in_list H.
Qed.


(** C8. A completed write carries, for the polygon at each index [i] of the
    regions it was given, the attribute [poly{i}_x] equal to the polygon's
    longitudes in input order and [poly{i}_y] equal to its latitudes in
    input order, each as long as the polygon has points, and no such
    attribute for an index past the last polygon. *)
Theorem region_attributes R fs gdf filename format kw fs' :
  route_of format kw ≠ None →
  to_file R fs gdf filename format kw = Ok fs' →
  ∃ c, fs' !! filename = Some c
    ∧ (∀ i poly, kw_regions kw !! i = Some poly →
         container_attrs c !! poly_x i = Some (PyArray (lon <$> poly))
         ∧ container_attrs c !! poly_y i = Some (PyArray (lat <$> poly))
         ∧ length (lon <$> poly) = length poly
         ∧ length (lat <$> poly) = length poly)
    ∧ (∀ i, (length (kw_regions kw) ≤ i)%nat →
         container_attrs c !! poly_x i = None
         ∧ container_attrs c !! poly_y i = None).
Proof.
  intros Hroute Hw.
  destruct (written_attrs R _ _ _ _ _ _ Hroute Hw) as (c & attrs0 & Hc & Hattrs & H0).
  exists c. split; [done|]. rewrite Hattrs. unfold add_regions. split.
  - intros i poly Hi.
    destruct (foldl_set_region_x (kw_regions kw)
                (add_parameters R (container_backend c) kw attrs0) i poly Hi)
      as [-> ->].
    by rewrite !length_fmap.
  - intros i Hi.
    assert (∀ k, (∃ j, (length (kw_regions kw) ≤ j)%nat ∧ (k = poly_x j ∨ k = poly_y j)) →
              foldl set_region (add_parameters R (container_backend c) kw attrs0)
                (enumerate (kw_regions kw)) !! k = None) as Hnone.
    { intros k (j & Hj & Hk).
      destruct (poly_not_parameter k) as [Hp Hg]; [by exists j|].
      rewrite foldl_set_region_other.
      - unfold add_parameters. rewrite foldl_set_parameter_other by done. by apply H0.
      - intros j' Hj'. destruct Hk as [-> | ->]; split; poly_ne. }
    split; apply Hnone; exists i; eauto.
Qed.

Lemma region_attributes_witness :
  route_of "nc" four_parameters ≠ None
  ∧ ∃ c, written (to_file cpython ∅ two_rows "out.nc" "nc" four_parameters)
           !! "out.nc" = Some c
    ∧ (∀ i poly, kw_regions four_parameters !! i = Some poly →
         container_attrs c !! poly_x i = Some (PyArray (lon <$> poly))
         ∧ container_attrs c !! poly_y i = Some (PyArray (lat <$> poly))
         ∧ length (lon <$> poly) = length poly
         ∧ length (lat <$> poly) = length poly)
    ∧ (∀ i, (length (kw_regions four_parameters) ≤ i)%nat →
         container_attrs c !! poly_x i = None
         ∧ container_attrs c !! poly_y i = None).
Proof.
  split; [by vm_compute|].
  apply (region_attributes cpython ∅ two_rows "out.nc" "nc" four_parameters);
    [by vm_compute|vm_compute; reflexivity].
Defined.



(** ** The variables and datasets of a written file *)



Lemma netcdf_variable_eq (a b : netcdf_variable) :
  nv_data a = nv_data b → nv_dimensions a = nv_dimensions b →
  nv_attrs a = nv_attrs b → a = b.
Proof. destruct a, b. simpl. by intros -> -> ->. Qed.

Section columns.
Context (R : runtime).
Implicit Types (attributes : list (string * schema_value)).

Lemma foldl_nv_setattr nc (items : list (string * pyval)) :
  nv_data (foldl (λ nc '(k, v), nv_setattr nc k v) nc items) = nv_data nc
  ∧ nv_dimensions (foldl (λ nc '(k, v), nv_setattr nc k v) nc items)
    = nv_dimensions nc
  ∧ nv_attrs (foldl (λ nc '(k, v), nv_setattr nc k v) nc items)
    = foldl (λ m '(k, v), <[k := v]> m) (nv_attrs nc) items.
Proof.
  revert nc. induction items as [|[k v] items IH]; intros nc; [done|].
  cbn [foldl]. destruct (IH (nv_setattr nc k v)) as (-> & -> & ->). done.
Qed.

(** The variable of a column: the cast data, big-endian over the one
    dimension, and the schema's items as attributes. *)
Lemma nc_variable_Ok attributes fileID key val nc :
  nc_variable R attributes fileID key val = Ok nc ↔
  nc_has_type R (arr_dtype (nc_cast val)) = true
  ∧ ∃ items, attributes_items attributes key = Ok items
    ∧ nv_data nc
      = NDArray (arr_dtype (nc_cast val))
          (order_of BigEndian (arr_dtype (nc_cast val)))
          [default 0%nat (dict_get "delta_time" (nc_dimensions fileID))]
          (arr_items (nc_cast val))
    ∧ nv_dimensions nc = ["delta_time"]
    ∧ nv_attrs nc = foldl (λ m '(k, v), <[k := v]> m) ∅ items.
Proof.
  unfold nc_variable, nc_cast, createVariable, copy.
  destruct (is_unsigned (arr_dtype val)); cbn [astype_int32 arr_dtype copy].
  - destruct (nc_has_type R int32); cbn [mbind result_bind].
    + destruct (attributes_items attributes key) as [items|e]; cbn [mbind result_bind].
      * split.
        -- intros [= <-]. split; [done|]. exists items.
           match goal with |- context [foldl ?f ?x items] =>
             destruct (foldl_nv_setattr x items) as (-> & -> & ->) end.
           done.
        -- intros (_ & items' & [= <-] & Hd & Hdim & Ha). f_equal.
           match goal with |- context [foldl ?f ?x items] =>
             destruct (foldl_nv_setattr x items) as (Hd' & Hdim' & Ha') end.
           apply netcdf_variable_eq; [rewrite Hd', Hd|rewrite Hdim', Hdim|rewrite Ha', Ha]; done.
      * split; [done|]. by intros (_ & items' & [=] & _).
    + split; [done|]. by intros [[=] _].
  - destruct (nc_has_type R (arr_dtype val)); cbn [mbind result_bind].
    + destruct (attributes_items attributes key) as [items|e]; cbn [mbind result_bind].
      * split.
        -- intros [= <-]. split; [done|]. exists items.
           match goal with |- context [foldl ?f ?x items] =>
             destruct (foldl_nv_setattr x items) as (-> & -> & ->) end.
           done.
        -- intros (_ & items' & [= <-] & Hd & Hdim & Ha). f_equal.
           match goal with |- context [foldl ?f ?x items] =>
             destruct (foldl_nv_setattr x items) as (Hd' & Hdim' & Ha') end.
           apply netcdf_variable_eq; [rewrite Hd', Hd|rewrite Hdim', Hdim|rewrite Ha', Ha]; done.
      * split; [done|]. by intros (_ & items' & [=] & _).
    + split; [done|]. by intros [[=] _].
Qed.

Lemma nc_variable_dimensions attributes fileID fileID' key val :
  nc_dimensions fileID = nc_dimensions fileID' →
  nc_variable R attributes fileID key val
  = nc_variable R attributes fileID' key val.
Proof. unfold nc_variable, createVariable. by intros ->. Qed.

(** The loop over the columns appends one variable per column. *)
Lemma nc_write_columns_exact attributes cols fileID fileID' :
  foldM (nc_write_column R attributes) fileID cols = Ok fileID' →
  NoDup (dict_keys (nc_variables fileID) ++ dict_keys cols) →
  ∃ vars, nc_variables fileID' = nc_variables fileID ++ vars
    ∧ Forall2 (λ kv kn, kn.1 = kv.1
                 ∧ nc_variable R attributes fileID kv.1 kv.2 = Ok kn.2)
        cols vars.
Proof.
  revert fileID. induction cols as [|[k v] cols IH]; intros fileID H Hnd.
  { injection H as <-. exists []. by rewrite app_nil_r. }
  cbn [foldM] in H. bind_inv H. unfold nc_write_column in Ha.
  bind_inv Ha. injection Ha as <-. cbn [fst snd] in *.
  unfold dict_keys in Hnd. rewrite fmap_cons in Hnd. cbn [fst] in Hnd.
  apply NoDup_app in Hnd as (Hnd1 & Hdisj & Hnd2).
  apply NoDup_cons in Hnd2 as [Hk Hnd2].
  assert (k ∉ dict_keys (nc_variables fileID)) as Hfresh.
  { intros Hin. apply (Hdisj _ Hin). apply elem_of_cons; by left. }
  rewrite dict_setitem_fresh in H by done.
  apply IH in H as (vars & Hvars & Hall); cbn [nc_variables nc_dimensions] in *.
  - exists ((k, a0) :: vars). split.
    + rewrite Hvars, <- app_assoc. done.
    + constructor; [done|].
      eapply Forall2_impl; [exact Hall|]. intros kv kn [? Hkn]. split; [done|].
      rewrite <- Hkn. by apply nc_variable_dimensions.
  - unfold dict_keys. rewrite fmap_app. cbn [fmap list_fmap fst].
    apply NoDup_app. split_and!.
    + apply NoDup_app. split_and!; [done| |apply NoDup_singleton].
      intros x Hx Hx'. apply list_elem_of_singleton in Hx' as ->. done.
    + intros x Hx Hx'. apply elem_of_app in Hx as [Hx|Hx].
      * apply (Hdisj _ Hx). apply elem_of_cons; by right.
      * apply list_elem_of_singleton in Hx as ->. done.
    + done.
Qed.

Lemma nc_write_columns_ok attributes cols fileID :
  Forall (λ kv, is_ok (nc_variable R attributes fileID kv.1 kv.2) = true) cols →
  is_ok (foldM (nc_write_column R attributes) fileID cols) = true.
Proof.
  revert fileID. induction cols as [|[k v] cols IH]; intros fileID Hall; [done|].
  apply Forall_cons in Hall as [Hkv Hall]. cbn [foldM fst snd] in *.
  destruct (nc_variable R attributes fileID k v) as [nc|] eqn:E; [|done].
  assert (nc_write_column R attributes fileID (k, v)
          = Ok {| nc_dimensions := nc_dimensions fileID;
                  nc_variables := dict_setitem k nc (nc_variables fileID);
                  nc_attrs := nc_attrs fileID |}) as ->.
  { unfold nc_write_column. cbn [fst snd]. by rewrite E. }
  cbn [mbind result_bind]. apply IH.
  eapply Forall_impl; [exact Hall|]. intros kv Hok. rewrite <- Hok.
  by rewrite (nc_variable_dimensions _ _ fileID).
Qed.

(** The variables a completed classic write stores, column by column. *)
Lemma to_nc_variables fs gdf filename kw fs' :
  NoDup (dict_keys (df_columns (gdf_frame gdf))) →
  to_nc R fs gdf filename kw = Ok fs' →
  ∃ f delta_time,
    fs' !! filename = Some (NetCDF f)
    ∧ dict_get "delta_time" (df_columns (flatten_geometry gdf)) = Some delta_time
    ∧ nc_dimensions f = [("delta_time", len delta_time)]
    ∧ Forall2 (λ kv kn, kn.1 = kv.1
                 ∧ nc_variable R (get_attributes (now_isoformat R))
                     {| nc_dimensions := [("delta_time", len delta_time)];
                        nc_variables := []; nc_attrs := ∅ |} kv.1 kv.2
                   = Ok kn.2)
        (df_columns (flatten_geometry gdf)) (nc_variables f).
Proof.
  intros Hnd H. unfold to_nc in H. bind_inv H. bind_inv H. bind_inv H.
  injection H as <-. rewrite lookup_insert_eq.
  unfold df_getitem, dict_getitem in Ha.
  destruct (dict_get "delta_time" _) as [dt|] eqn:Hdt; [|done].
  injection Ha as <-. eexists _, dt. split; [done|]. split; [done|].
  cbn [nc_dimensions nc_variables].
  destruct (nc_write_columns_attrs _ _ _ _ _ Ha0) as [_ ->].
  split; [done|].
  apply nc_write_columns_exact in Ha0 as (vars & -> & Hall); [done|].
  cbn [nc_variables app]. unfold flatten_geometry, df_setitem. cbn [df_columns].
  by do 2 apply dict_setitem_NoDup.
Qed.
End columns.

Lemma dict_get_Forall2 {A B} (Q : string → A → B → Prop)
    (d1 : list (string * A)) (d2 : list (string * B)) k v :
  Forall2 (λ kv kn, kn.1 = kv.1 ∧ Q kv.1 kv.2 kn.2) d1 d2 →
  dict_get k d1 = Some v →
  ∃ w, dict_get k d2 = Some w ∧ Q k v w.
Proof.
  induction 1 as [|[k1 v1] [k2 v2] d1 d2 [Hk HQ] _ IH]; [done|].
  cbn [fst snd] in *. subst k2. cbn [dict_get].
  destruct (String.eqb_spec k k1) as [->|_]; [|done].
  intros [= ->]. eauto.
Qed.

Lemma Forall2_dict_keys {A B} (Q : string → A → B → Prop)
    (d1 : list (string * A)) (d2 : list (string * B)) :
  Forall2 (λ kv kn, kn.1 = kv.1 ∧ Q kv.1 kv.2 kn.2) d1 d2 →
  dict_keys d2 = dict_keys d1.
Proof.
  unfold dict_keys. induction 1 as [|[k1 v1] [k2 v2] d1 d2 [Hk _] _ IH]; [done|].
  rewrite !fmap_cons. cbn [fst] in *. by rewrite IH, Hk.
Qed.

(** C4. When the classic writer completes, every column of the flattened
    table is a variable of the file under its own name: a column of an
    unsigned integer type as a signed 32-bit variable holding the values
    cast to int32 (wrapping modulo 2^32), every other column with its own
    element type and its values unchanged. *)
Theorem unsigned_downcast R fs gdf filename kw fs' :
  NoDup (dict_keys (df_columns (gdf_frame gdf))) →
  to_nc R fs gdf filename kw = Ok fs' →
  ∃ c, fs' !! filename = Some c
    ∧ ∀ key val,
        dict_get key (df_columns (flatten_geometry gdf)) = Some val →
        ∃ data, variable_data c key = Some data
          ∧ if is_unsigned (arr_dtype val)
            then arr_dtype data = int32
                 ∧ arr_items data = scalar_to_int32 <$> arr_items val
            else arr_dtype data = arr_dtype val
                 ∧ arr_items data = arr_items val.
Proof.
  intros Hnd H.
  destruct (to_nc_variables R _ _ _ _ _ Hnd H) as (f & dt & Hf & _ & _ & Hall).
  exists (NetCDF f). split; [done|]. intros key val Hkey.
  destruct (dict_get_Forall2
              (λ k v n, nc_variable R (get_attributes (now_isoformat R))
                          {| nc_dimensions := [("delta_time", len dt)];
                             nc_variables := []; nc_attrs := ∅ |} k v = Ok n)
              _ _ _ _ Hall Hkey) as (nc & Hnc & Hvar).
  exists (nv_data nc). cbn [variable_data]. rewrite Hnc. split; [done|].
  apply nc_variable_Ok in Hvar as (_ & items & _ & -> & _).
  unfold nc_cast. by destruct (is_unsigned (arr_dtype val)).
Qed.

Lemma unsigned_downcast_witness :
  NoDup (dict_keys (df_columns (gdf_frame two_rows_wide)))
  ∧ ∃ c, written (to_nc cpython ∅ two_rows_wide "out.nc" no_kwargs) !! "out.nc" = Some c
    ∧ variable_data c "segment_id"
      = Some (NDArray int32 BigEndian [2%nat] [SInt 5; SInt (-1294967296)])
    ∧ ∀ key val,
        dict_get key (df_columns (flatten_geometry two_rows_wide)) = Some val →
        ∃ data, variable_data c key = Some data
          ∧ if is_unsigned (arr_dtype val)
            then arr_dtype data = int32
                 ∧ arr_items data = scalar_to_int32 <$> arr_items val
            else arr_dtype data = arr_dtype val
                 ∧ arr_items data = arr_items val.
Proof.
  assert (NoDup (dict_keys (df_columns (gdf_frame two_rows_wide)))) as Hnd.
  { apply (bool_decide_unpack _). vm_compute. exact I. }
  split; [exact Hnd|].
  destruct (unsigned_downcast cpython ∅ two_rows_wide "out.nc" no_kwargs
              (written (to_nc cpython ∅ two_rows_wide "out.nc" no_kwargs)) Hnd)
    as (c & Hc & Hcols); [vm_compute; reflexivity|].
  exists c. split; [exact Hc|]. split; [|exact Hcols].
  vm_compute in Hc. injection Hc as <-. vm_compute. reflexivity.
Defined.

Lemma h5_dataset_eq (a b : h5_dataset) :
  ds_data a = ds_data b → ds_compression a = ds_compression b →
  ds_scales a = ds_scales b → ds_attrs a = ds_attrs b → a = b.
Proof. destruct a, b. simpl. by intros -> -> -> ->. Qed.

Lemma ds_set_attrs_spec ds (items : list (string * pyval)) :
  ds_data (ds_set_attrs ds items) = ds_data ds
  ∧ ds_compression (ds_set_attrs ds items) = ds_compression ds
  ∧ ds_scales (ds_set_attrs ds items) = ds_scales ds
  ∧ ds_attrs (ds_set_attrs ds items)
    = foldl (λ m '(k, v), <[k := v]> m) (ds_attrs ds) items.
Proof.
  unfold ds_set_attrs. revert ds.
  induction items as [|[k v] items IH]; intros ds; [done|].
  cbn [foldl]. match goal with |- context [foldl ?f ?x items] =>
    destruct (IH x) as (-> & -> & -> & ->) end. done.
Qed.

Section datasets.
Context (R : runtime).
Implicit Types (attributes : list (string * schema_value)).

(** What the loop over the columns leaves under each name. *)
Lemma h5_write_columns_lookup attributes cols fileID fileID' :
  foldM (h5_write_column attributes) fileID cols = Ok fileID' →
  NoDup (dict_keys cols) →
  ∀ key,
    match dict_get key cols with
    | Some val =>
        if decide (key = "delta_time")
        then h5_datasets fileID' !! key = h5_datasets fileID !! key
        else ∃ ds, h5_dataset_of attributes key val = Ok ds
               ∧ h5_datasets fileID' !! key = Some ds
    | None => h5_datasets fileID' !! key = h5_datasets fileID !! key
    end.
Proof.
  revert fileID. induction cols as [|[k v] cols IH]; intros fileID H Hnd key.
  { by injection H as <-. }
  unfold dict_keys in Hnd. rewrite fmap_cons in Hnd.
  apply NoDup_cons in Hnd as [Hk Hnd]. cbn [fst] in Hk.
  cbn [foldM] in H. bind_inv H.
  specialize (IH _ H Hnd). cbn [dict_get].
  assert (dict_get k cols = None) as Hknone by by apply dict_get_None.
  unfold h5_write_column in Ha. cbn [fst snd] in Ha.
  destruct (String.eqb_spec k "delta_time") as [->|Hkdt].
  - injection Ha as <-.
    destruct (String.eqb_spec key "delta_time") as [->|Hne]; [|apply IH].
    rewrite decide_True by done. specialize (IH "delta_time").
    by rewrite Hknone in IH.
  - bind_inv Ha. injection Ha as <-.
    destruct (String.eqb_spec key k) as [->|Hne].
    + rewrite decide_False by done. exists a0. split; [done|].
      specialize (IH k). rewrite Hknone in IH. rewrite IH.
      apply lookup_insert_eq.
    + specialize (IH key). cbn [h5_datasets] in IH.
      rewrite lookup_insert_ne in IH by done. done.
Qed.

(** The datasets a completed h5py write stores, name by name. *)
Lemma write_h5py_datasets fs df filename attributes kw fs' :
  NoDup (dict_keys (df_columns df)) →
  write_h5py R fs df filename attributes kw = Ok fs' →
  ∃ f, fs' !! filename = Some (H5File f)
    ∧ is_Some (dict_get "delta_time" (df_columns df))
    ∧ ∀ key,
        match dict_get key (df_columns df) with
        | Some val =>
            ∃ items ds,
              attributes_items attributes key = Ok items
              ∧ h5_datasets f !! key = Some ds
              ∧ ds_data ds = val
              ∧ ds_attrs ds = foldl (λ m '(k, v), <[k := v]> m) ∅ items
        | None => h5_datasets f !! key = None
        end.
Proof.
  intros Hnd H. unfold write_h5py in H.
  bind_inv H. bind_inv H. bind_inv H. bind_inv H. injection H as <-.
  eexists. rewrite lookup_insert_eq. split; [done|]. cbn [h5_datasets].
  unfold df_getitem, dict_getitem in Ha.
  destruct (dict_get "delta_time" (df_columns df)) as [dt|] eqn:Hdt; [|done].
  injection Ha as <-. split; [done|]. intros key.
  pose proof (h5_write_columns_lookup _ _ _ _ Ha1 Hnd key) as Hkey.
  cbn [h5_datasets] in Hkey.
  destruct (dict_get key (df_columns df)) as [val|] eqn:Hval.
  - destruct (decide (key = "delta_time")) as [->|Hne].
    + rewrite Hkey, lookup_singleton_eq. rewrite Hdt in Hval. injection Hval as <-.
      destruct (ds_set_attrs_spec (create_dataset dt) a0) as (Hd & _ & _ & Hat).
      eexists a0, _. split_and!; [done|done|by rewrite Hd|by rewrite Hat].
    + destruct Hkey as (ds & Hds & ->). unfold h5_dataset_of in Hds.
      bind_inv Hds. injection Hds as <-.
      destruct (ds_set_attrs_spec
                  (attach_scale (create_dataset val) "delta_time") a)
        as (Hd & _ & _ & Hat).
      eexists a, _. split_and!; [done|done|by rewrite Hd|by rewrite Hat].
  - rewrite Hkey. apply lookup_singleton_ne. intros <-. congruence.
Qed.
End datasets.





Section schema_attributes.
Context (R : runtime).



End schema_attributes.



(** ** The [delta_time] precondition *)

Lemma from_file_route fs filename format kw :
  from_file fs filename format kw
  = match route_of format kw with
    | Some Classic => gdf ← from_nc fs filename; Ok (Some gdf)
    | Some VariantA => gdf ← read_pytables fs filename; Ok (Some gdf)
    | Some VariantB => gdf ← read_h5py fs filename; Ok (Some gdf)
    | None => Ok None
    end.
Proof.
  unfold from_file, route_of, from_hdf. fold (driver_of kw).
  destruct (str_in (lower format) ["hdf"; "hdf5"; "h5"]).
  - destruct (String.eqb (lower (driver_of kw)) "pytables"); [done|].
    by destruct (String.eqb (lower (driver_of kw)) "h5py").
  - by destruct (str_in (lower format) ["netcdf"; "nc"]).
Qed.

Lemma dict_get_map_to_list {A} (m : gmap string A) k :
  dict_get k (map_to_list m) = m !! k.
Proof.
  destruct (m !! k) as [v|] eqn:E.
  - apply dict_get_NoDup; [apply NoDup_fst_map_to_list|].
    by apply elem_of_map_to_list.
  - destruct (dict_get k (map_to_list m)) as [v|] eqn:E'; [|done].
    apply dict_get_elem_of, elem_of_map_to_list in E'. congruence.
Qed.

Lemma flatten_geometry_get gdf key :
  dict_get key (df_columns (flatten_geometry gdf))
  = if decide (key = "longitude")
    then Some (array float64 (SFloat ∘ point_x <$> gdf_geometry gdf))
    else if decide (key = "latitude")
    then Some (array float64 (SFloat ∘ point_y <$> gdf_geometry gdf))
    else dict_get key (df_columns (gdf_frame gdf)).
Proof.
  unfold flatten_geometry, df_setitem. cbn [df_columns].
  by rewrite !dict_get_setitem.
Qed.





(** ** Sorting by the index *)

Lemma time_leb_total a b : time_leb a b = false → time_leb b a = true.
Proof.
  destruct a as [|x], b as [|y]; simpl; try done.
  intros H. apply Z.leb_gt in H. apply Z.leb_le. lia.
Qed.

Lemma insert_row_HdRel r r0 l :
  row_le r0 r → HdRel row_le r0 l → HdRel row_le r0 (insert_row r l).
Proof.
  intros Hr Hl. destruct l as [|r' l]; simpl; [by constructor|].
  destruct (time_leb r.1 r'.1); constructor; [done|].
  by apply HdRel_inv in Hl.
Qed.

Lemma insert_row_Sorted r l : Sorted row_le l → Sorted row_le (insert_row r l).
Proof.
  induction 1 as [|r' l Hl IH Hhd]; simpl; [by repeat constructor|].
  destruct (time_leb r.1 r'.1) eqn:E.
  - constructor; [by constructor|]. by constructor.
  - constructor; [done|]. apply insert_row_HdRel; [|done].
    by apply time_leb_total.
Qed.

Lemma insert_row_Permutation r l : insert_row r l ≡ₚ r :: l.
Proof.
  induction l as [|r' l IH]; simpl; [done|].
  destruct (time_leb r.1 r'.1); [done|]. rewrite IH. apply Permutation_swap.
Qed.

Lemma sort_rows_Sorted l : Sorted row_le (foldr insert_row [] l).
Proof. induction l; simpl; [constructor|by apply insert_row_Sorted]. Qed.

Lemma sort_rows_Permutation l : foldr insert_row [] l ≡ₚ l.
Proof.
  induction l as [|r l IH]; simpl; [done|].
  by rewrite insert_row_Permutation, IH.
Qed.

(** Rows already in order stay where they are. *)
Lemma sort_rows_sorted (keys : list time64) (s : nat) :
  Sorted time_le keys →
  foldr insert_row [] (zip keys (seq s (length keys)))
  = zip keys (seq s (length keys)).
Proof.
  revert s. induction keys as [|k keys IH]; intros s Hs; [done|].
  apply Sorted_inv in Hs as [Hs Hhd]. cbn [length seq zip zip_with foldr].
  fold (zip keys (seq (S s) (length keys))). rewrite IH by done.
  destruct keys as [|k' keys]; [done|].
  apply HdRel_inv in Hhd. cbn [length seq zip zip_with insert_row fst].
  unfold time_le in Hhd. by rewrite Hhd.
Qed.

Lemma argsort_Permutation keys : argsort keys ≡ₚ seq 0 (length keys).
Proof.
  unfold argsort. rewrite sort_rows_Permutation.
  rewrite snd_zip; [done|]. by rewrite length_seq.
Qed.

Lemma argsort_length keys : length (argsort keys) = length keys.
Proof. by rewrite argsort_Permutation, length_seq. Qed.

Lemma argsort_bound keys : Forall (λ i, (i < length keys)%nat) (argsort keys).
Proof.
  rewrite argsort_Permutation. apply Forall_forall. intros i Hi.
  apply elem_of_seq in Hi. lia.
Qed.

Lemma argsort_sorted_id keys :
  Sorted time_le keys → argsort keys = seq 0 (length keys).
Proof.
  intros Hs. unfold argsort. rewrite sort_rows_sorted by done.
  rewrite snd_zip; [done|]. by rewrite length_seq.
Qed.

Lemma take_rows (keys : list time64) (rows : list (time64 * nat)) :
  Forall (λ r, keys !! r.2 = Some r.1) rows → take rows.*2 keys = rows.*1.
Proof.
  unfold take. induction 1 as [|[k i] rows Hr _ IH]; [done|].
  rewrite !fmap_cons. cbn [omap list_omap fst snd] in *.
  rewrite Hr. cbn. f_equal. exact IH.
Qed.

Lemma argsort_Sorted keys : Sorted time_le (take (argsort keys) keys).
Proof.
  unfold argsort. rewrite take_rows.
  - apply (Sorted_fmap fst row_le time_le); [done|]. apply sort_rows_Sorted.
  - rewrite sort_rows_Permutation. apply Forall_forall. intros [k i] Hin.
    apply list_elem_of_lookup in Hin as [j Hj].
    apply lookup_zip_with_Some in Hj as (k' & i' & [= <- <-] & Hk & Hi).
    apply lookup_seq in Hi as [-> _]. done.
Qed.

Lemma take_fmap {A B} (f : A → B) σ (l : list A) :
  take σ (f <$> l) = f <$> take σ l.
Proof.
  unfold take. induction σ as [|i σ IH]; [done|].
  cbn [omap list_omap]. rewrite list_lookup_fmap.
  destruct (l !! i); cbn; by rewrite IH.
Qed.

Lemma take_length {A} σ (l : list A) :
  Forall (λ i, (i < length l)%nat) σ → length (take σ l) = length σ.
Proof.
  unfold take. induction 1 as [|i σ Hi _ IH]; [done|].
  cbn [omap list_omap]. apply lookup_lt_is_Some in Hi as [x ->].
  cbn. by rewrite IH.
Qed.

Lemma take_seq_from {A} (l1 l2 : list A) :
  take (seq (length l1) (length l2)) (l1 ++ l2) = l2.
Proof.
  unfold take. revert l1. induction l2 as [|x l2 IH]; intros l1; [done|].
  cbn [length seq omap list_omap]. rewrite list_lookup_middle by done.
  cbn. f_equal. specialize (IH (l1 ++ [x])).
  rewrite length_app, Nat.add_1_r, <- app_assoc in IH. exact IH.
Qed.

Lemma take_seq {A} (l : list A) : take (seq 0 (length l)) l = l.
Proof. apply (take_seq_from [] l). Qed.

Lemma take_zip_with {A B C} (f : A → B → C) σ (l1 : list A) (l2 : list B) :
  length l1 = length l2 →
  take σ (zip_with f l1 l2) = zip_with f (take σ l1) (take σ l2).
Proof.
  intros Hlen. unfold take. induction σ as [|i σ IH]; [done|].
  cbn [omap list_omap]. rewrite lookup_zip_with.
  destruct (l1 !! i) as [a|] eqn:E1; cbn.
  - apply lookup_lt_Some in E1 as Hlt. rewrite Hlen in Hlt.
    apply lookup_lt_is_Some in Hlt as [b E2]. rewrite E2. cbn. by rewrite IH.
  - apply lookup_ge_None in E1. rewrite Hlen in E1.
    apply lookup_ge_None in E1. rewrite E1. exact IH.
Qed.


(** ** The table a reader assembles *)

Lemma dict_del_Forall {A} (P : string * A → Prop) k (d : list (string * A)) :
  Forall P d → Forall P (dict_del k d).
Proof.
  induction 1 as [|[k' v] d Hkv _ IH]; cbn [dict_del]; [constructor|].
  destruct (String.eqb k k'); [done|by constructor].
Qed.

Lemma dict_get_Forall {A} (P : string * A → Prop) k v (d : list (string * A)) :
  Forall P d → dict_get k d = Some v → P (k, v).
Proof.
  intros Hall Hget. apply dict_get_elem_of in Hget.
  by eapply Forall_forall in Hall.
Qed.

(** A successful [assemble] returns the rows of the variables in
    ascending order of the reconstructed time. *)
Lemma assemble_Ok nc gdf :
  assemble nc = Ok gdf →
  ∃ delta_time x y,
    dict_get "delta_time" nc = Some delta_time
    ∧ dict_get "longitude" nc = Some x
    ∧ dict_get "latitude" nc = Some y
    ∧ gdf = rows_of (argsort (time_column delta_time)) nc delta_time x y.
Proof.
  unfold assemble, dict_getitem. intros H.
  destruct (dict_get "delta_time" nc) as [dt|]; [|done].
  destruct (dict_get "longitude" nc) as [x|]; [|done].
  destruct (dict_get "latitude" nc) as [y|]; [|done].
  cbn [mbind result_bind] in H. bind_inv H. bind_inv H. bind_inv H.
  injection H as <-. exists dt, x, y. split_and!; try done.
  unfold points_from_xy in Ha.
  destruct (arr_shape x) as [|? [|]]; try done.
  destruct (arr_shape y) as [|? [|]]; try done.
  case_decide; [|done]. injection Ha as <-.
  unfold DataFrame_of_dict in Ha0. destruct (forallb _ _); [|done].
  injection Ha0 as <-.
  unfold GeoDataFrame_of in Ha1. case_decide; [|done]. injection Ha1 as <-.
  done.
Qed.


Lemma kept_columns_delta_time nc :
  dict_get "delta_time" (kept_columns nc) = dict_get "delta_time" nc.
Proof. unfold kept_columns. rewrite !dict_get_del. by rewrite !decide_False. Qed.




(** ** Writing a table and reading it back *)


Lemma array_take_items σ a b :
  arr_dtype a = arr_dtype b → arr_order a = arr_order b →
  arr_items a = arr_items b → array_take σ a = array_take σ b.
Proof. unfold array_take. by intros -> -> ->. Qed.

Lemma time_column_items a b :
  arr_items a = arr_items b → time_column a = time_column b.
Proof. unfold time_column. by intros ->. Qed.

Section read_back.
Context (gdf : GeoDataFrame) (n : nat).
Context (Hok : table_ok n gdf).
Context (Hnames :
  ∀ key, key ∈ ["latitude"; "longitude"; "time"; "geometry"] →
         key ∉ dict_keys (df_columns (gdf_frame gdf))).


End read_back.


Lemma schema_column_items now key :
  key ∈ schema_variables (get_attributes "") →
  is_ok (attributes_items (get_attributes now) key) = true.
Proof.
  intros H. cbn in H.
  repeat (apply elem_of_cons in H as [->|H]); try reflexivity.
  by apply elem_of_nil in H.
Qed.

Lemma schema_column_names key :
  schema_column key →
  key ∉ ["latitude"; "longitude"; "time"; "geometry"].
Proof.
  intros (H & Hlat & Hlon) Hin. cbn in H.
  repeat (apply elem_of_cons in Hin as [->|Hin]); try done.
  - not_in_list H.
  - not_in_list H.
  - by apply elem_of_nil in Hin.
Qed.


Lemma flatten_columns gdf :
  "latitude" ∉ dict_keys (df_columns (gdf_frame gdf)) →
  "longitude" ∉ dict_keys (df_columns (gdf_frame gdf)) →
  df_columns (flatten_geometry gdf)
  = df_columns (gdf_frame gdf)
    ++ [("latitude", latitude_of gdf); ("longitude", longitude_of gdf)].
Proof.
  intros Hlat Hlon. unfold flatten_geometry, df_setitem. cbn [df_columns].
  rewrite (dict_setitem_fresh "latitude") by done.
  rewrite dict_setitem_fresh.
  - by rewrite <- app_assoc.
  - unfold dict_keys. rewrite fmap_app. cbn.
    rewrite elem_of_app, list_elem_of_singleton. by intros [?|?].
Qed.

Section classic_round_trip.
Context (R : runtime).

Lemma nc_variable_is_ok attributes fileID key val :
  nc_has_type R (arr_dtype (nc_cast val)) = true →
  is_ok (attributes_items attributes key) = true →
  is_ok (nc_variable R attributes fileID key val) = true.
Proof.
  unfold nc_variable, nc_cast, createVariable, copy.
  destruct (is_unsigned (arr_dtype val)); cbn [astype_int32 arr_dtype];
    intros -> Hitems; cbn [mbind result_bind];
    by destruct (attributes_items attributes key).
Qed.


End classic_round_trip.






(** A table of one row is written, and the file cannot be read back, on
    the classic path and on the h5py path alike. *)
Lemma single_row_read_raises :
  is_ok (to_file cpython ∅ one_row "out.nc" "nc" no_kwargs) = true
  ∧ from_file (written (to_file cpython ∅ one_row "out.nc" "nc" no_kwargs))
      "out.nc" "nc" no_kwargs
    = Raise TypeError
  ∧ from_file (written (to_file cpython ∅ one_row "out.h5" "h5"
                          (without_parameters four_parameters)))
      "out.h5" "h5" (without_parameters four_parameters)
    = Raise TypeError.
Proof. split_and!; vm_compute; reflexivity. Qed.

(** ** The hierarchical round trips *)



Section hierarchical.
Context (R : runtime).


Lemma h5_write_columns_ok attributes cols fileID :
  Forall (λ kv, is_ok (attributes_items attributes kv.1) = true) cols →
  is_ok (foldM (h5_write_column attributes) fileID cols) = true.
Proof.
  revert fileID. induction cols as [|[k v] cols IH]; intros fileID Hall; [done|].
  apply Forall_cons in Hall as [Hkv Hall]. cbn [foldM fst snd] in *.
  assert (∃ f', h5_write_column attributes fileID (k, v) = Ok f') as [f' ->].
  { unfold h5_write_column, h5_dataset_of. cbn [fst snd].
    destruct (String.eqb k "delta_time"); [eauto|].
    destruct (attributes_items attributes k); [|done]. cbn. eauto. }
  cbn [mbind result_bind]. by apply IH.
Qed.

(** The writer's half of a Variant B round trip. *)
Lemma write_h5py_read_back fs gdf filename kw n delta_time :
  table_ok n gdf →
  Forall schema_column (dict_keys (df_columns (gdf_frame gdf))) →
  dict_get "delta_time" (df_columns (gdf_frame gdf)) = Some delta_time →
  ∃ fs' f,
    write_h5py R fs (flatten_geometry gdf) filename
      (get_attributes (now_isoformat R)) kw = Ok fs'
    ∧ fs' !! filename = Some (H5File f)
    ∧ ∀ key, dict_get key (dict_map (λ val, squeeze (ds_data val))
                             (map_to_list (h5_datasets f)))
             = squeeze <$> dict_get key (df_columns (flatten_geometry gdf)).
Proof.
  intros (Hidx & Hgeo & Hnd & Hcols) Hschema Hdt.
  assert (∀ key, key ∈ ["latitude"; "longitude"; "time"; "geometry"] →
                 key ∉ dict_keys (df_columns (gdf_frame gdf))) as Hnames.
  { intros key Hkey Hin. eapply Forall_forall in Hschema; [|exact Hin].
    by apply schema_column_names in Hschema. }
  assert (df_columns (flatten_geometry gdf)
          = df_columns (gdf_frame gdf)
            ++ [("latitude", latitude_of gdf); ("longitude", longitude_of gdf)])
    as Hflat.
  { apply flatten_columns; apply Hnames; in_list. }
  assert (dict_get "delta_time" (df_columns (flatten_geometry gdf))
          = Some delta_time) as Hdt'.
  { rewrite flatten_geometry_get. by rewrite !decide_False. }
  assert (NoDup (dict_keys (df_columns (flatten_geometry gdf)))) as Hnd'.
  { unfold flatten_geometry, df_setitem. cbn [df_columns].
    by do 2 apply dict_setitem_NoDup. }
  assert (is_ok (write_h5py R fs (flatten_geometry gdf) filename
                   (get_attributes (now_isoformat R)) kw) = true) as Hsucc.
  { unfold write_h5py, df_getitem, dict_getitem. rewrite Hdt'.
    cbn [mbind result_bind].
    assert (∃ items, attributes_items (get_attributes (now_isoformat R))
                       "delta_time" = Ok items) as [items ->]
      by (eexists; reflexivity).
    cbn [mbind result_bind].
    match goal with |- is_ok (foldM ?f ?b ?l ≫= _) = true =>
      pose proof (h5_write_columns_ok (get_attributes (now_isoformat R)) l b)
        as Hloop end.
    destruct (foldM _ _ _) as [fileID|]; cbn [mbind result_bind].
    - pose proof (add_globals_nc (now_isoformat R) (h5_attrs fileID)) as Hg.
      by destruct (add_globals _ _ _).
    - apply Hloop. rewrite Hflat. apply Forall_app. split.
      + apply Forall_forall. intros [k v] Hin. cbn [fst].
        apply schema_column_items.
        eapply Forall_forall in Hschema as [? _]; [done|].
        apply list_elem_of_fmap. by exists (k, v).
      + repeat constructor. }
  destruct (write_h5py _ _ _ _ _ _) as [fs'|] eqn:Hw; [|done].
  destruct (write_h5py_datasets R _ _ _ _ _ _ Hnd' Hw) as (f & Hf & _ & Hall).
  exists fs', f. split; [done|]. split; [done|]. intros key.
  rewrite dict_get_map, dict_get_map_to_list. specialize (Hall key).
  destruct (dict_get key (df_columns (flatten_geometry gdf))) as [val|].
  - destruct Hall as (items & ds & _ & -> & <- & _). done.
  - by rewrite Hall.
Qed.
End hierarchical.




(** ** Byte order on the classic read path *)

Lemma nc_unpack_with_order v :
  nc_unpack {| nv_dimensions := nv_dimensions v;
               nv_data := with_order BigEndian (nv_data v);
               nv_attrs := nv_attrs v |}
  = nc_unpack {| nv_dimensions := nv_dimensions v;
                 nv_data := with_order Native (nv_data v);
                 nv_attrs := nv_attrs v |}.
Proof.
  unfold nc_unpack, squeeze, with_order, order_of, byteswap_newbyteorder, copy.
  cbn [nv_data arr_order arr_dtype arr_shape arr_items].
  by destruct (itemsize (arr_dtype (nv_data v)) =? 1).
Qed.

Lemma nc_unpack_order v : arr_order (nc_unpack v) ≠ BigEndian.
Proof.
  unfold nc_unpack, byteswap_newbyteorder, copy.
  destruct (arr_order (squeeze (nv_data v))) eqn:E; [by rewrite E|done|by rewrite E].
Qed.

Lemma kept_columns_elem_of kv nc : kv ∈ kept_columns nc → kv ∈ nc.
Proof.
  unfold kept_columns. intros H.
  assert (∀ k (d : list (string * ndarray)), kv ∈ dict_del k d → kv ∈ d) as Hdel.
  { intros k d. induction d as [|[k' v'] d IH]; cbn [dict_del]; [done|].
    destruct (String.eqb k k'); rewrite ?elem_of_cons; intros; tauto. }
  by do 4 apply Hdel in H.
Qed.

(** X2. The classic reader brings every variable to the byte order of the
    machine: a file whose variables are stored big-endian is read as the
    same table as the file that holds the same values in native order, and
    no column of a table read from a classic file is big-endian. *)
Theorem byte_order_normalised fs filename f :
  from_nc (<[filename := NetCDF (stored_as BigEndian f)]> fs) filename
  = from_nc (<[filename := NetCDF (stored_as Native f)]> fs) filename
  ∧ ∀ fs' gdf,
      from_nc fs' filename = Ok gdf →
      Forall (λ kv, arr_order kv.2 ≠ BigEndian) (df_columns (gdf_frame gdf)).
Proof.
  split.
  - unfold from_nc, netcdf_open. rewrite !lookup_insert_eq.
    cbn [mbind result_bind stored_as nc_variables]. f_equal.
    rewrite !dict_map_map. unfold dict_map. apply list_fmap_ext.
    intros _ [k v] _. cbn. f_equal. apply nc_unpack_with_order.
  - intros fs' gdf H. unfold from_nc in H. bind_inv H.
    apply assemble_Ok in H as (dt & x & y & _ & _ & _ & ->).
    cbn [rows_of gdf_frame df_columns]. apply Forall_forall. intros [k col] Hin.
    unfold dict_map in Hin.
    apply list_elem_of_fmap in Hin as ([k' col'] & [= -> ->] & Hin).
    apply kept_columns_elem_of in Hin.
    apply list_elem_of_fmap in Hin as ([k'' v] & [= -> ->] & _).
    cbn. apply nc_unpack_order.
Qed.
(** ** Tables of one row *)

(** The reader stops at the points when a coordinate variable has no
    dimension left. *)
Lemma assemble_unsized nc delta_time x y :
  dict_get "delta_time" nc = Some delta_time →
  dict_get "longitude" nc = Some x →
  dict_get "latitude" nc = Some y →
  arr_shape x = [] →
  assemble nc = Raise TypeError.
Proof.
  intros Hdt Hx Hy Hs. unfold assemble, dict_getitem.
  rewrite Hdt, Hx, Hy. cbn [mbind result_bind].
  unfold points_from_xy. by rewrite Hs.
Qed.

Section one_row.
Context (R : runtime).

(** The classic write of a table of schema columns completes. *)
Lemma to_nc_is_ok fs gdf filename kw n delta_time :
  table_ok n gdf →
  Forall schema_column (dict_keys (df_columns (gdf_frame gdf))) →
  dict_get "delta_time" (df_columns (gdf_frame gdf)) = Some delta_time →
  Forall (λ kv, nc_has_type R (arr_dtype (nc_cast kv.2)) = true)
    (df_columns (gdf_frame gdf)) →
  nc_has_type R float64 = true →
  is_ok (to_nc R fs gdf filename kw) = true.
Proof.
  intros (Hidx & Hgeo & Hnd & Hcols) Hschema Hdt Htypes Hfloat.
  assert (∀ key, key ∈ ["latitude"; "longitude"; "time"; "geometry"] →
                 key ∉ dict_keys (df_columns (gdf_frame gdf))) as Hnames.
  { intros key Hkey Hin. eapply Forall_forall in Hschema; [|exact Hin].
    by apply schema_column_names in Hschema. }
  assert (df_columns (flatten_geometry gdf)
          = df_columns (gdf_frame gdf)
            ++ [("latitude", latitude_of gdf); ("longitude", longitude_of gdf)])
    as Hflat.
  { apply flatten_columns; apply Hnames; in_list. }
  unfold to_nc, df_getitem, dict_getitem.
  rewrite flatten_geometry_get, !decide_False, Hdt by done.
  cbn [mbind result_bind].
  match goal with |- is_ok (foldM ?f ?b ?l ≫= _) = true =>
    pose proof (nc_write_columns_ok R (get_attributes (now_isoformat R)) l b)
      as Hloop end.
  destruct (foldM _ _ _) as [fileID|]; cbn [mbind result_bind].
  - pose proof (add_globals_nc (now_isoformat R) (nc_attrs fileID)) as Hg.
    by destruct (add_globals _ _ _).
  - apply Hloop. rewrite Hflat. apply Forall_app. split.
    + apply Forall_forall. intros [k v] Hin. cbn [fst snd].
      apply nc_variable_is_ok.
      * by eapply Forall_forall in Htypes; [|exact Hin].
      * apply schema_column_items.
        eapply Forall_forall in Hschema as [? _]; [done|].
        apply list_elem_of_fmap. by exists (k, v).
    + repeat constructor; cbn [fst snd];
        by apply nc_variable_is_ok; [|apply schema_column_items; cbn; in_list].
Qed.

(** The variables of a written classic file lie over the one dimension,
    which is as long as [delta_time]. *)
Lemma to_nc_shapes fs gdf filename kw fs' :
  NoDup (dict_keys (df_columns (gdf_frame gdf))) →
  to_nc R fs gdf filename kw = Ok fs' →
  ∃ f delta_time,
    fs' !! filename = Some (NetCDF f)
    ∧ dict_get "delta_time" (df_columns (flatten_geometry gdf)) = Some delta_time
    ∧ ∀ key val,
        dict_get key (df_columns (flatten_geometry gdf)) = Some val →
        ∃ nc, dict_get key (nc_variables f) = Some nc
          ∧ nv_dimensions nc = ["delta_time"]
          ∧ arr_shape (nv_data nc) = [len delta_time].
Proof.
  intros Hnd H.
  destruct (to_nc_variables R _ _ _ _ _ Hnd H) as (f & dt & Hf & Hdt & _ & Hall).
  exists f, dt. split; [done|]. split; [done|]. intros key val Hval.
  destruct (dict_get_Forall2
              (λ k v n, nc_variable R (get_attributes (now_isoformat R))
                          {| nc_dimensions := [("delta_time", len dt)];
                             nc_variables := []; nc_attrs := ∅ |} k v = Ok n)
              _ _ _ _ Hall Hval) as (nc & Hnc & Hvar).
  apply nc_variable_Ok in Hvar as (_ & items & _ & Hdata & Hdim & _).
  exists nc. split; [done|]. split; [done|]. by rewrite Hdata.
Qed.

Lemma nc_unpack_shape v :
  arr_shape (nc_unpack v) = filter (λ d, d ≠ 1%nat) (arr_shape (nv_data v)).
Proof.
  unfold nc_unpack, byteswap_newbyteorder, copy.
  by destruct (arr_order (squeeze (nv_data v))).
Qed.
End one_row.

(** X1. A table of exactly one row, with columns of the schema, is written
    on the classic and on the h5py path, and the file cannot be read back:
    [squeeze] leaves each single-element variable without a dimension, and
    the points cannot be built from the coordinates, so that the read
    raises [TypeError]. *)
Theorem single_row_unreadable R fs gdf filename format kw kw' delta_time :
  table_ok 1 gdf →
  Forall schema_column (dict_keys (df_columns (gdf_frame gdf))) →
  dict_get "delta_time" (df_columns (gdf_frame gdf)) = Some delta_time →
  driver_of kw' = driver_of kw →
  route_of format kw = Some VariantB
  ∨ (route_of format kw = Some Classic
     ∧ Forall (λ kv, nc_has_type R (arr_dtype (nc_cast kv.2)) = true)
         (df_columns (gdf_frame gdf))
     ∧ nc_has_type R float64 = true) →
  ∃ fs',
    to_file R fs gdf filename format kw = Ok fs'
    ∧ from_file fs' filename format kw' = Raise TypeError.
Proof.
  intros Hok Hschema Hdt Hdrv Hroute.
  assert (route_of format kw' = route_of format kw) as Hr'.
  { unfold route_of. by rewrite Hdrv. }
  assert (∀ key, key ∈ ["latitude"; "longitude"; "time"; "geometry"] →
                 key ∉ dict_keys (df_columns (gdf_frame gdf))) as Hnames.
  { intros key Hkey Hin. eapply Forall_forall in Hschema; [|exact Hin].
    by apply schema_column_names in Hschema. }
  assert (dict_get "delta_time" (df_columns (flatten_geometry gdf))
          = Some delta_time) as Hdt'.
  { rewrite flatten_geometry_get. by rewrite !decide_False. }
  assert (dict_get "longitude" (df_columns (flatten_geometry gdf))
          = Some (longitude_of gdf)) as Hx.
  { rewrite flatten_geometry_get. by rewrite decide_True. }
  assert (dict_get "latitude" (df_columns (flatten_geometry gdf))
          = Some (latitude_of gdf)) as Hy.
  { rewrite flatten_geometry_get. rewrite decide_False by done.
    by rewrite decide_True. }
  rewrite to_file_route.
  destruct Hroute as [Hr | (Hr & Htypes & Hfloat)]; rewrite Hr in *.
  - destruct (write_h5py_read_back R fs gdf filename kw 1 delta_time
                Hok Hschema Hdt) as (fs' & f & Hw & Hf & Hkeys).
    exists fs'. split; [done|]. rewrite from_file_route, Hr'.
    unfold read_h5py, h5_open. rewrite Hf. cbn [mbind result_bind].
    erewrite assemble_unsized; [done| | | |].
    + by rewrite Hkeys, Hdt'.
    + by rewrite Hkeys, Hx.
    + by rewrite Hkeys, Hy.
    + destruct Hok as (_ & Hg & _). unfold squeeze, longitude_of, array.
      cbn [arr_shape]. rewrite length_fmap, Hg. done.
  - pose proof (to_nc_is_ok R fs gdf filename kw 1 delta_time
                  Hok Hschema Hdt Htypes Hfloat) as Hsucc.
    destruct (to_nc R fs gdf filename kw) as [fs'|] eqn:Hw; [|done].
    exists fs'. split; [done|].
    destruct Hok as (_ & _ & Hnd & Hcols).
    destruct (to_nc_shapes R _ _ _ _ _ Hnd Hw) as (f & dt & Hf & Hdt'' & Hvars).
    rewrite Hdt' in Hdt''. injection Hdt'' as <-.
    assert (len delta_time = 1%nat) as Hlen.
    { apply (dict_get_Forall _ _ _ _ Hcols) in Hdt.
      by destruct Hdt as (_ & _ & ? & _). }
    destruct (Hvars _ _ Hdt') as (nct & Hnct & _).
    destruct (Hvars _ _ Hx) as (ncx & Hncx & _ & Hsx).
    destruct (Hvars _ _ Hy) as (ncy & Hncy & _).
    rewrite from_file_route, Hr'.
    unfold from_nc, netcdf_open. rewrite Hf. cbn [mbind result_bind].
    erewrite assemble_unsized; [done| | | |].
    + by rewrite dict_get_map, Hnct.
    + by rewrite dict_get_map, Hncx.
    + by rewrite dict_get_map, Hncy.
    + by rewrite nc_unpack_shape, Hsx, Hlen.
Qed.

Lemma single_row_unreadable_witness :
  table_ok 1 one_row
  ∧ (∃ fs', to_file cpython ∅ one_row "out.nc" "nc" no_kwargs = Ok fs'
       ∧ from_file fs' "out.nc" "nc" no_kwargs = Raise TypeError)
  ∧ (∃ fs', to_file cpython ∅ one_row "out.h5" "h5" with_h5py = Ok fs'
       ∧ from_file fs' "out.h5" "h5" with_h5py = Raise TypeError).
Proof.
  assert (table_ok 1 one_row) as Hok.
  { unfold table_ok. split_and!; [reflexivity|reflexivity| |].
    - apply (bool_decide_unpack _). vm_compute. exact I.
    - repeat apply Forall_cons_2; try apply Forall_nil_2;
        (split_and!; [reflexivity|reflexivity|reflexivity|]);
        repeat apply Forall_cons_2; try apply Forall_nil_2; cbn; lia. }
  assert (Forall schema_column (dict_keys (df_columns (gdf_frame one_row))))
    as Hschema.
  { apply (bool_decide_unpack _). vm_compute. exact I. }
  split; [exact Hok|]. split.
  - apply (single_row_unreadable cpython ∅ one_row "out.nc" "nc" no_kwargs
             no_kwargs (array float64 [SFloat 0%float]) Hok Hschema eq_refl eq_refl).
    right. split_and!; [reflexivity| |reflexivity].
    repeat apply Forall_cons_2; try apply Forall_nil_2; reflexivity.
  - apply (single_row_unreadable cpython ∅ one_row "out.h5" "h5" with_h5py
             with_h5py (array float64 [SFloat 0%float]) Hok Hschema eq_refl eq_refl).
    by left.
Defined.
(** ** The layout of the written files *)

Lemma Forall2_Forall_snd {A B} (Q : string → A → B → Prop) (P : string * B → Prop)
    (d1 : list (string * A)) (d2 : list (string * B)) :
  Forall2 (λ kv kn, kn.1 = kv.1 ∧ Q kv.1 kv.2 kn.2) d1 d2 →
  (∀ k v w, Q k v w → P (k, w)) →
  Forall P d2.
Proof.
  intros H HP. induction H as [|[k1 v1] [k2 v2] d1 d2 [Hk HQ] _ IH]; [constructor|].
  cbn [fst snd] in *. subst k2. constructor; [by eapply HP|done].
Qed.

Lemma nc_cast_not_unsigned val : is_unsigned (arr_dtype (nc_cast val)) = false.
Proof.
  unfold nc_cast, copy. by destruct (is_unsigned (arr_dtype val)) eqn:E.
Qed.

Section layout.
Context (R : runtime).

(** X3. A completed classic write leaves a file with the one dimension
    [delta_time], as long as that column, and one variable per column of
    the flattened table, under the column's name and in the columns' order
    (the two coordinates last, for a table that has no columns of their
    names); every variable lies over the one dimension, and none has an
    unsigned element type or a type the container lacks. *)
Theorem classic_file_layout fs gdf filename kw fs' :
  NoDup (dict_keys (df_columns (gdf_frame gdf))) →
  to_nc R fs gdf filename kw = Ok fs' →
  ∃ f delta_time,
    fs' !! filename = Some (NetCDF f)
    ∧ dict_get "delta_time" (df_columns (flatten_geometry gdf)) = Some delta_time
    ∧ nc_dimensions f = [("delta_time", len delta_time)]
    ∧ dict_keys (nc_variables f) = dict_keys (df_columns (flatten_geometry gdf))
    ∧ Forall (λ kn, nv_dimensions kn.2 = ["delta_time"]
                    ∧ arr_shape (nv_data kn.2) = [len delta_time]
                    ∧ is_unsigned (arr_dtype (nv_data kn.2)) = false
                    ∧ nc_has_type R (arr_dtype (nv_data kn.2)) = true)
        (nc_variables f).
Proof.
  intros Hnd H.
  destruct (to_nc_variables R _ _ _ _ _ Hnd H) as (f & dt & Hf & Hdt & Hdim & Hall).
  exists f, dt. split_and!; try done.
  - by eapply (Forall2_dict_keys
                 (λ k v n, nc_variable R (get_attributes (now_isoformat R))
                             {| nc_dimensions := [("delta_time", len dt)];
                                nc_variables := []; nc_attrs := ∅ |} k v = Ok n)).
  - eapply (Forall2_Forall_snd
              (λ k v n, nc_variable R (get_attributes (now_isoformat R))
                          {| nc_dimensions := [("delta_time", len dt)];
                             nc_variables := []; nc_attrs := ∅ |} k v = Ok n));
      [exact Hall|].
    intros k v w Hw. cbn [snd].
    apply nc_variable_Ok in Hw as (Ht & items & _ & Hdata & Hdims & _).
    rewrite Hdata. cbn [arr_shape arr_dtype]. split_and!; try done.
    apply nc_cast_not_unsigned.
Qed.

(** X4. A completed h5py write leaves a file with one dataset per column of
    the frame, under the column's name and holding the column as it is:
    every dataset is compressed with gzip, and every dataset other than
    [delta_time] has [delta_time] attached as the scale of its dimension. *)
Theorem h5py_file_layout fs df filename attributes kw fs' :
  NoDup (dict_keys (df_columns df)) →
  write_h5py R fs df filename attributes kw = Ok fs' →
  ∃ f, fs' !! filename = Some (H5File f)
    ∧ ∀ key,
        match dict_get key (df_columns df) with
        | Some val =>
            ∃ ds, h5_datasets f !! key = Some ds
              ∧ ds_data ds = val
              ∧ ds_compression ds = "gzip"
              ∧ ds_scales ds
                = if decide (key = "delta_time") then [] else ["delta_time"]
        | None => h5_datasets f !! key = None
        end.
Proof.
  intros Hnd H. unfold write_h5py in H.
  bind_inv H. bind_inv H. bind_inv H. bind_inv H. injection H as <-.
  eexists. rewrite lookup_insert_eq. split; [done|]. cbn [h5_datasets].
  unfold df_getitem, dict_getitem in Ha.
  destruct (dict_get "delta_time" (df_columns df)) as [dt|] eqn:Hdt; [|done].
  injection Ha as <-. intros key.
  pose proof (h5_write_columns_lookup _ _ _ _ Ha1 Hnd key) as Hkey.
  cbn [h5_datasets] in Hkey.
  destruct (dict_get key (df_columns df)) as [val|] eqn:Hval.
  - destruct (decide (key = "delta_time")) as [->|Hne].
    + rewrite Hkey, lookup_singleton_eq. rewrite Hdt in Hval. injection Hval as <-.
      destruct (ds_set_attrs_spec (create_dataset dt) a0) as (Hd & Hc & Hs & _).
      eexists. split_and!; [done|by rewrite Hd|by rewrite Hc|by rewrite Hs].
    + destruct Hkey as (ds & Hds & ->). unfold h5_dataset_of in Hds.
      bind_inv Hds. injection Hds as <-.
      destruct (ds_set_attrs_spec
                  (attach_scale (create_dataset val) "delta_time") a)
        as (Hd & Hc & Hs & _).
      eexists. split_and!; [done|by rewrite Hd|by rewrite Hc|by rewrite Hs].
  - rewrite Hkey. apply lookup_singleton_ne. intros <-. congruence.
Qed.
End layout.

Lemma classic_file_layout_witness :
  NoDup (dict_keys (df_columns (gdf_frame two_rows)))
  ∧ ∃ f delta_time,
      written (to_nc cpython ∅ two_rows "out.nc" no_kwargs) !! "out.nc"
      = Some (NetCDF f)
      ∧ dict_get "delta_time" (df_columns (flatten_geometry two_rows))
        = Some delta_time
      ∧ nc_dimensions f = [("delta_time", len delta_time)]
      ∧ dict_keys (nc_variables f)
        = dict_keys (df_columns (flatten_geometry two_rows))
      ∧ Forall (λ kn, nv_dimensions kn.2 = ["delta_time"]
                      ∧ arr_shape (nv_data kn.2) = [len delta_time]
                      ∧ is_unsigned (arr_dtype (nv_data kn.2)) = false
                      ∧ nc_has_type cpython (arr_dtype (nv_data kn.2)) = true)
          (nc_variables f).
Proof.
  assert (NoDup (dict_keys (df_columns (gdf_frame two_rows)))) as Hnd.
  { apply (bool_decide_unpack _). vm_compute. exact I. }
  split; [exact Hnd|].
  apply (classic_file_layout cpython ∅ two_rows "out.nc" no_kwargs _ Hnd).
  vm_compute. reflexivity.
Defined.

Lemma h5py_file_layout_witness :
  NoDup (dict_keys (df_columns (flatten_geometry two_rows)))
  ∧ ∃ f,
      written (write_h5py cpython ∅ (flatten_geometry two_rows) "out.h5"
                 (get_attributes "2021-10-01") with_h5py) !! "out.h5"
      = Some (H5File f)
      ∧ ∀ key,
          match dict_get key (df_columns (flatten_geometry two_rows)) with
          | Some val =>
              ∃ ds, h5_datasets f !! key = Some ds
                ∧ ds_data ds = val
                ∧ ds_compression ds = "gzip"
                ∧ ds_scales ds
                  = if decide (key = "delta_time") then [] else ["delta_time"]
          | None => h5_datasets f !! key = None
          end.
Proof.
  assert (NoDup (dict_keys (df_columns (flatten_geometry two_rows)))) as Hnd.
  { apply (bool_decide_unpack _). vm_compute. exact I. }
  split; [exact Hnd|].
  apply (h5py_file_layout cpython ∅ (flatten_geometry two_rows) "out.h5"
           (get_attributes "2021-10-01") with_h5py _ Hnd).
  vm_compute. reflexivity.
Defined.
(** ** The file-level attributes copied from the schema *)




Section globals.
Context (R : runtime).


End globals.

(** ** A write and the rest of the file system *)

Section locality.
Context (R : runtime).


End locality.

(** ** The tokens of the two wrappers *)

Section tokens.
Context (R : runtime).

(** The writers read the keyword arguments for the parameters and the
    regions only. *)
Lemma writers_kwargs fs gdf df filename attributes kw kw' :
  kw_parameters kw' = kw_parameters kw →
  kw_regions kw' = kw_regions kw →
  to_nc R fs gdf filename kw' = to_nc R fs gdf filename kw
  ∧ write_pytables R fs df filename attributes kw'
    = write_pytables R fs df filename attributes kw
  ∧ write_h5py R fs df filename attributes kw'
    = write_h5py R fs df filename attributes kw.
Proof.
  destruct kw as [d p r v], kw' as [d' p' r' v']. cbn. intros -> ->.
  split_and!; reflexivity.
Qed.

(** X7. The format and the driver are compared in lower case, and a call that
    names no driver is a call with the driver pytables: two calls whose
    tokens agree in lower case, with the same other arguments, write the
    same file and read the same table. *)
Theorem tokens_case_insensitive fs gdf filename format format' kw kw' :
  lower format' = lower format →
  lower (driver_of kw') = lower (driver_of kw) →
  kw_parameters kw' = kw_parameters kw →
  kw_regions kw' = kw_regions kw →
  kw_verbose kw' = kw_verbose kw →
  to_file R fs gdf filename format' kw' = to_file R fs gdf filename format kw
  ∧ from_file fs filename format' kw' = from_file fs filename format kw.
Proof.
  intros Hf Hd Hp Hr _.
  assert (route_of format' kw' = route_of format kw) as Hroute.
  { unfold route_of. by rewrite Hf, Hd. }
  rewrite !to_file_route, !from_file_route, Hroute.
  destruct (writers_kwargs fs gdf (flatten_geometry gdf) filename
              (get_attributes (now_isoformat R)) kw kw' Hp Hr) as (-> & -> & ->).
  done.
Qed.
End tokens.

Lemma tokens_case_insensitive_witness :
  to_file cpython ∅ two_rows "out.h5" "HDF5" (with_driver "H5py")
  = to_file cpython ∅ two_rows "out.h5" "hdf5" with_h5py
  ∧ from_file ∅ "out.h5" "HDF5" (with_driver "H5py")
    = from_file ∅ "out.h5" "hdf5" with_h5py.
Proof.
  apply (tokens_case_insensitive cpython ∅ two_rows "out.h5" "hdf5" "HDF5"
           with_h5py (with_driver "H5py")); reflexivity.
Defined.
(** ** The schema and the clock *)

(** X8. [get_attributes] reads the clock for the creation date and for nothing
    else: it has the same keys whatever the clock reads, each once, nine of
    them file-level values; the creation date is the clock's reading, and
    every other key has the same value at every time. *)
Theorem schema_clock (now now' : string) :
  dict_keys (get_attributes now') = dict_keys (get_attributes now)
  ∧ NoDup (dict_keys (get_attributes now))
  ∧ omap (λ kv, match kv.2 with Global _ => Some kv.1 | Entry _ => None end)
      (get_attributes now)
    = [ "featureType"; "title"; "reference"; "date_created";
        "geospatial_lat_units"; "geospatial_lon_units"; "geospatial_ellipsoid";
        "date_type"; "time_type" ]
  ∧ dict_get "date_created" (get_attributes now) = Some (Global (PyStr now))
  ∧ ∀ key, key ≠ "date_created" →
      dict_get key (get_attributes now') = dict_get key (get_attributes now).
Proof.
  split_and!; try reflexivity.
  - apply (bool_decide_unpack _). vm_compute. exact I.
  - intros key Hne. unfold get_attributes. cbn [dict_get].
    repeat match goal with
           | |- context [String.eqb key ?s] =>
               destruct (String.eqb_spec key s) as [->|?]; [first [done|congruence]|]
           end.
    done.
Qed.
(** ** The table a reader returns *)

Lemma kept_columns_get key nc :
  dict_get key (kept_columns nc)
  = if decide (key ∈ ["latitude"; "longitude"; "time"; "geometry"])
    then None else dict_get key nc.
Proof.
  unfold kept_columns. rewrite !dict_get_del.
  repeat case_decide; try done; subst.
  all: try (exfalso; match goal with H : _ ∉ _ |- _ => apply H end; in_list).
  all: match goal with H : _ ∈ _ |- _ =>
         repeat (apply elem_of_cons in H as [->|H]); try done;
         by apply elem_of_nil in H end.
Qed.

Lemma kept_columns_Forall (P : string * ndarray → Prop) nc :
  Forall P (dict_del "time" (dict_del "latitude" (dict_del "longitude" nc))) →
  Forall P (kept_columns nc).
Proof. apply dict_del_Forall. Qed.

(** What [assemble] has checked when it returns a table. *)
Lemma assemble_shape nc gdf :
  assemble nc = Ok gdf →
  ∃ n, index_len (df_index (gdf_frame gdf)) = n
    ∧ length (gdf_geometry gdf) = n
    ∧ Forall (λ kv, arr_shape kv.2 = [n] ∧ len kv.2 = n)
        (df_columns (gdf_frame gdf))
    ∧ index_sorted (df_index (gdf_frame gdf))
    ∧ ∀ key, dict_get key (df_columns (gdf_frame gdf)) = None
             ↔ key ∈ ["latitude"; "longitude"; "time"; "geometry"]
               ∨ dict_get key nc = None.
Proof.
  intros H. pose proof H as H'.
  apply assemble_Ok in H' as (dt & x & y & Hdt & Hx & Hy & ->).
  unfold assemble, dict_getitem in H. rewrite Hdt, Hx, Hy in H.
  cbn [mbind result_bind] in H. bind_inv H. bind_inv H. bind_inv H. clear H.
  unfold points_from_xy in Ha.
  destruct (arr_shape x) as [|dx [|]]; try done.
  destruct (arr_shape y) as [|dy [|]]; try done.
  case_decide; [|done]. injection Ha as <-.
  unfold DataFrame_of_dict in Ha0.
  destruct (forallb _ _) eqn:Hall; [|done]. injection Ha0 as <-.
  unfold GeoDataFrame_of in Ha1. case_decide as Hg; [|done]. clear Ha1.
  cbn [df_index index_len] in Hg.
  set (n := length (time_column dt)) in *.
  set (σ := argsort (time_column dt)).
  assert (length σ = n) as Hσ by apply argsort_length.
  assert (Forall (λ i, (i < n)%nat) σ) as Hbound by apply argsort_bound.
  exists n. cbn [rows_of gdf_frame gdf_geometry df_index df_columns index_len].
  split_and!.
  - by rewrite take_length.
  - rewrite take_length; [done|]. fold (points x y) in Hg. by rewrite Hg.
  - apply Forall_forall. intros [k col] Hin. unfold dict_map in Hin.
    apply list_elem_of_fmap in Hin as ([k' col'] & [= -> ->] & Hin).
    assert (arr_shape col' = [n] ∧ len col' = n) as [_ Hlen].
    { rewrite forallb_forall in Hall.
      assert ((k', col') ∈ dict_del "time"
                 (dict_del "latitude" (dict_del "longitude" nc))) as Hin'.
      { revert Hin. unfold kept_columns. generalize (dict_del "time"
          (dict_del "latitude" (dict_del "longitude" nc))).
        intros d. induction d as [|[k0 v0] d IH]; cbn [dict_del]; [done|].
        destruct (String.eqb "geometry" k0); rewrite ?elem_of_cons; intros; tauto. }
      apply list_elem_of_In, Hall in Hin'. by apply bool_decide_eq_true_1 in Hin'. }
    cbn [snd array_take arr_shape]. unfold len, array_take in *. cbn [arr_items].
    rewrite take_length by (by rewrite Hlen). by rewrite Hσ.
  - apply argsort_Sorted.
  - intros key. rewrite dict_get_map, kept_columns_get.
    case_decide as Hk.
    + split; [by left|done].
    + destruct (dict_get key nc); cbn; split; try done.
      * by intros [?|?].
      * by right.
Qed.

(** X9. Whatever classic or h5py file it is read from, a table that is read
    has one length for its index, its geometry and each of its columns, an
    index in ascending order, no column named latitude, longitude, time or
    geometry, and a column for every other variable of the file. *)
Theorem read_table_shape fs filename format kw gdf :
  route_of format kw = Some Classic ∨ route_of format kw = Some VariantB →
  from_file fs filename format kw = Ok (Some gdf) →
  ∃ c n,
    fs !! filename = Some c
    ∧ index_len (df_index (gdf_frame gdf)) = n
    ∧ length (gdf_geometry gdf) = n
    ∧ Forall (λ kv, arr_shape kv.2 = [n] ∧ len kv.2 = n)
        (df_columns (gdf_frame gdf))
    ∧ index_sorted (df_index (gdf_frame gdf))
    ∧ ∀ key, dict_get key (df_columns (gdf_frame gdf)) = None
             ↔ key ∈ ["latitude"; "longitude"; "time"; "geometry"]
               ∨ stored_column c key = None.
Proof.
  intros Hroute H. rewrite from_file_route in H.
  destruct Hroute as [Hr|Hr]; rewrite Hr in H; bind_inv H; injection H as <-.
  - unfold from_nc in Ha. bind_inv Ha. unfold netcdf_open in Ha0.
    destruct (fs !! filename) as [[f|f|f]|] eqn:Hf; try done. injection Ha0 as <-.
    apply assemble_shape in Ha as (n & Hi & Hg & Hc & Hs & Hk).
    exists (NetCDF f), n. split_and!; try done.
    intros key. rewrite Hk, dict_get_map. cbn [stored_column].
    destruct (dict_get key (nc_variables f)); cbn;
      [split; (intros [?|?]; [by left|done])|done].
  - unfold read_h5py in Ha. bind_inv Ha. unfold h5_open in Ha0.
    destruct (fs !! filename) as [[f|f|f]|] eqn:Hf; try done. injection Ha0 as <-.
    apply assemble_shape in Ha as (n & Hi & Hg & Hc & Hs & Hk).
    exists (H5File f), n. split_and!; try done.
    intros key. rewrite Hk, dict_get_map, dict_get_map_to_list.
    cbn [stored_column]. destruct (h5_datasets f !! key); cbn;
      [split; (intros [?|?]; [by left|done])|done].
Qed.

Lemma read_table_shape_witness :
  (route_of "nc" no_kwargs = Some Classic ∨ route_of "nc" no_kwargs = Some VariantB)
  ∧ ∃ c n,
      written (to_file cpython ∅ two_rows "out.nc" "nc" no_kwargs) !! "out.nc"
      = Some c
      ∧ index_len (df_index (gdf_frame
          (returned (from_file (written (to_file cpython ∅ two_rows "out.nc" "nc"
                                           no_kwargs)) "out.nc" "nc" no_kwargs))))
        = n
      ∧ length (gdf_geometry
          (returned (from_file (written (to_file cpython ∅ two_rows "out.nc" "nc"
                                           no_kwargs)) "out.nc" "nc" no_kwargs)))
        = n
      ∧ Forall (λ kv, arr_shape kv.2 = [n] ∧ len kv.2 = n)
          (df_columns (gdf_frame
            (returned (from_file (written (to_file cpython ∅ two_rows "out.nc" "nc"
                                             no_kwargs)) "out.nc" "nc" no_kwargs))))
      ∧ index_sorted (df_index (gdf_frame
          (returned (from_file (written (to_file cpython ∅ two_rows "out.nc" "nc"
                                           no_kwargs)) "out.nc" "nc" no_kwargs))))
      ∧ ∀ key,
          dict_get key (df_columns (gdf_frame
            (returned (from_file (written (to_file cpython ∅ two_rows "out.nc" "nc"
                                             no_kwargs)) "out.nc" "nc" no_kwargs))))
          = None
          ↔ key ∈ ["latitude"; "longitude"; "time"; "geometry"]
            ∨ stored_column c key = None.
Proof.
  split; [by left|].
  apply (read_table_shape
           (written (to_file cpython ∅ two_rows "out.nc" "nc" no_kwargs))
           "out.nc" "nc" no_kwargs); [by left|].
  vm_compute. reflexivity.
Defined.
(** ** A file without its coordinates *)

(** The reader's steps up to the points, on variables that hold
    [delta_time]. *)
Lemma assemble_without_coordinates nc delta_time :
  dict_get "delta_time" nc = Some delta_time →
  (dict_get "longitude" nc = None → assemble nc = Raise (KeyError "longitude"))
  ∧ (is_Some (dict_get "longitude" nc) → dict_get "latitude" nc = None →
     assemble nc = Raise (KeyError "latitude")).
Proof.
  intros Hdt. unfold assemble, dict_getitem. rewrite Hdt.
  cbn [mbind result_bind]. split.
  - by intros ->.
  - intros [x ->] ->. done.
Qed.

(** X10. A reader that has got past [delta_time] asks for the longitude and
    then for the latitude, and raises [KeyError] for the first of the two
    that its file does not hold. *)
Theorem coordinates_required fs filename format kw c :
  fs !! filename = Some c →
  route_of format kw = Some (container_route c) →
  reaches_coordinates c →
  (stored_column c "longitude" = None →
   from_file fs filename format kw = Raise (KeyError "longitude"))
  ∧ (is_Some (stored_column c "longitude") →
     stored_column c "latitude" = None →
     from_file fs filename format kw = Raise (KeyError "latitude")).
Proof.
  intros Hc Hroute Hreach. rewrite from_file_route, Hroute.
  destruct c as [f|f|f]; cbn [container_route stored_column reaches_coordinates] in *.
  - unfold from_nc, netcdf_open. rewrite Hc. cbn [mbind result_bind].
    destruct Hreach as [dt Hdt].
    destruct (dict_get "delta_time" (nc_variables f)) as [vdt|] eqn:Evdt; [|done].
    destruct (assemble_without_coordinates (dict_map nc_unpack (nc_variables f))
                (nc_unpack vdt)) as [Hlon Hlat].
    { by rewrite dict_get_map, Evdt. }
    split.
    + intros Hx. rewrite Hlon; [done|]. rewrite dict_get_map. apply fmap_None.
      by apply fmap_None in Hx.
    + intros Hx Hy. rewrite Hlat; [done| |].
      * rewrite dict_get_map. apply fmap_is_Some. by apply fmap_is_Some in Hx.
      * rewrite dict_get_map. apply fmap_None. by apply fmap_None in Hy.
  - destruct Hreach as (key & df & Hframes).
    unfold read_pytables, read_hdf, hdfstore_open. rewrite Hc.
    cbn [mbind result_bind]. rewrite Hframes in *. cbn [mbind result_bind].
    unfold df_getitem, dict_getitem. split.
    + by intros ->.
    + intros [x ->] ->. done.
  - unfold read_h5py, h5_open. rewrite Hc. cbn [mbind result_bind].
    destruct Hreach as [dt Hdt].
    destruct (h5_datasets f !! "delta_time") as [vdt|] eqn:Evdt; [|done].
    destruct (assemble_without_coordinates
                (dict_map (λ val, squeeze (ds_data val))
                   (map_to_list (h5_datasets f)))
                (squeeze (ds_data vdt))) as [Hlon Hlat].
    { by rewrite dict_get_map, dict_get_map_to_list, Evdt. }
    split.
    + intros Hx. rewrite Hlon; [done|]. rewrite dict_get_map, dict_get_map_to_list.
      apply fmap_None. by apply fmap_None in Hx.
    + intros Hx Hy. rewrite Hlat; [done| |].
      * rewrite dict_get_map, dict_get_map_to_list.
        apply fmap_is_Some. by apply fmap_is_Some in Hx.
      * rewrite dict_get_map, dict_get_map_to_list.
        apply fmap_None. by apply fmap_None in Hy.
Qed.

Lemma coordinates_required_witness :
  (<["a.nc" := NetCDF time_only]> ∅ : filesystem) !! "a.nc" = Some (NetCDF time_only)
  ∧ reaches_coordinates (NetCDF time_only)
  ∧ (stored_column (NetCDF time_only) "longitude" = None →
     from_file (<["a.nc" := NetCDF time_only]> ∅) "a.nc" "nc" no_kwargs
     = Raise (KeyError "longitude"))
  ∧ (is_Some (stored_column (NetCDF time_only) "longitude") →
     stored_column (NetCDF time_only) "latitude" = None →
     from_file (<["a.nc" := NetCDF time_only]> ∅) "a.nc" "nc" no_kwargs
     = Raise (KeyError "latitude")).
Proof.
  assert (reaches_coordinates (NetCDF time_only)) as Hreach.
  { cbn. by eexists. }
  split; [apply lookup_insert_eq|]. split; [exact Hreach|].
  apply (coordinates_required (<["a.nc" := NetCDF time_only]> ∅) "a.nc" "nc"
           no_kwargs (NetCDF time_only)).
  - apply lookup_insert_eq.
  - reflexivity.
  - exact Hreach.
Defined.
(** ** The downcast of the classic writer, value by value *)

Lemma wrap_32_exact z : 0 ≤ z → wrap 32 z = z ↔ z < 2 ^ 31.
Proof.
  intros Hz. unfold wrap.
  pose proof (Z.mod_pos_bound (z + 2 ^ (32 - 1)) (2 ^ 32) ltac:(lia)) as Hb.
  split.
  - intros H. change (2 ^ (32 - 1)) with (2 ^ 31) in *. lia.
  - intros H. rewrite Z.mod_small; [lia|]. change (2 ^ (32 - 1)) with (2 ^ 31). lia.
Qed.

Lemma wrap_32_high z : 2 ^ 31 ≤ z < 2 ^ 32 → wrap 32 z = z - 2 ^ 32.
Proof.
  intros Hz. unfold wrap. change (2 ^ (32 - 1)) with (2 ^ 31).
  replace (z + 2 ^ 31) with ((z - 2 ^ 31) + 1 * 2 ^ 32) by lia.
  rewrite Z.mod_add by lia. rewrite Z.mod_small by lia. lia.
Qed.

(** X11. In a completed classic write an unsigned column keeps, value by
    value, exactly the values below 2^31: every such value is stored as it
    is, every larger one is stored as another number, and one between 2^31
    and 2^32 as itself less 2^32. *)
Theorem downcast_exact_iff R fs gdf filename kw fs' key val :
  NoDup (dict_keys (df_columns (gdf_frame gdf))) →
  to_nc R fs gdf filename kw = Ok fs' →
  dict_get key (df_columns (flatten_geometry gdf)) = Some val →
  is_unsigned (arr_dtype val) = true →
  ∃ c data,
    fs' !! filename = Some c
    ∧ stored_column c key = Some data
    ∧ ∀ i z, arr_items val !! i = Some (SInt z) → 0 ≤ z →
        (arr_items data !! i = Some (SInt z) ↔ z < 2 ^ 31)
        ∧ (2 ^ 31 ≤ z < 2 ^ 32 →
           arr_items data !! i = Some (SInt (z - 2 ^ 32))).
Proof.
  intros Hnd Hw Hval Hu.
  destruct (to_nc_variables R _ _ _ _ _ Hnd Hw) as (f & dt & Hf & _ & _ & Hall).
  destruct (dict_get_Forall2
              (λ k v n, nc_variable R (get_attributes (now_isoformat R))
                          {| nc_dimensions := [("delta_time", len dt)];
                             nc_variables := []; nc_attrs := ∅ |} k v = Ok n)
              _ _ _ _ Hall Hval) as (nc & Hnc & Hvar).
  apply nc_variable_Ok in Hvar as (_ & items & _ & Hdata & _).
  exists (NetCDF f), (nv_data nc). split; [done|]. split.
  { cbn [stored_column]. by rewrite Hnc. }
  intros i z Hi Hz. rewrite Hdata. cbn [arr_items].
  unfold nc_cast. rewrite Hu. cbn [astype_int32 arr_items].
  rewrite list_lookup_fmap, Hi. cbn [fmap option_fmap option_map scalar_to_int32].
  split.
  - rewrite <- (wrap_32_exact z Hz). split; [by intros [= ->]|by intros ->].
  - intros Hhigh. by rewrite wrap_32_high.
Qed.

Lemma downcast_exact_iff_witness :
  NoDup (dict_keys (df_columns (gdf_frame two_rows_wide)))
  ∧ ∃ c data,
      written (to_nc cpython ∅ two_rows_wide "out.nc" no_kwargs) !! "out.nc"
      = Some c
      ∧ stored_column c "segment_id" = Some data
      ∧ ∀ i z,
          arr_items (array uint32 [SInt 5; SInt 3000000000]) !! i = Some (SInt z) →
          0 ≤ z →
          (arr_items data !! i = Some (SInt z) ↔ z < 2 ^ 31)
          ∧ (2 ^ 31 ≤ z < 2 ^ 32 →
             arr_items data !! i = Some (SInt (z - 2 ^ 32))).
Proof.
  assert (NoDup (dict_keys (df_columns (gdf_frame two_rows_wide)))) as Hnd.
  { apply (bool_decide_unpack _). vm_compute. exact I. }
  split; [exact Hnd|].
  apply (downcast_exact_iff cpython ∅ two_rows_wide "out.nc" no_kwargs _
           "segment_id" (array uint32 [SInt 5; SInt 3000000000]) Hnd);
    [vm_compute; reflexivity|reflexivity|reflexivity].
Defined.
(** ** The coordinates a file holds *)

(** X12. On every route a completed write stores, under the names longitude and
    latitude, the coordinates of the table's points as float64 arrays, in
    the order of the rows; a column of the table that has one of the two
    names is replaced by them and is not stored. *)
Theorem coordinates_from_geometry R fs gdf filename format kw fs' :
  NoDup (dict_keys (df_columns (gdf_frame gdf))) →
  route_of format kw ≠ None →
  to_file R fs gdf filename format kw = Ok fs' →
  ∃ c x y,
    fs' !! filename = Some c
    ∧ stored_column c "longitude" = Some x
    ∧ stored_column c "latitude" = Some y
    ∧ arr_dtype x = float64 ∧ arr_dtype y = float64
    ∧ arr_items x = SFloat ∘ point_x <$> gdf_geometry gdf
    ∧ arr_items y = SFloat ∘ point_y <$> gdf_geometry gdf.
Proof.
  intros Hnd Hroute. rewrite to_file_route.
  assert (dict_get "longitude" (df_columns (flatten_geometry gdf))
          = Some (longitude_of gdf)) as Hx.
  { rewrite flatten_geometry_get. by rewrite decide_True. }
  assert (dict_get "latitude" (df_columns (flatten_geometry gdf))
          = Some (latitude_of gdf)) as Hy.
  { rewrite flatten_geometry_get. rewrite decide_False by done.
    by rewrite decide_True. }
  assert (NoDup (dict_keys (df_columns (flatten_geometry gdf)))) as Hnd'.
  { unfold flatten_geometry, df_setitem. cbn [df_columns].
    by do 2 apply dict_setitem_NoDup. }
  destruct (route_of format kw) as [[| |]|]; [| | |done]; clear Hroute; intros Hw.
  - destruct (to_nc_variables R _ _ _ _ _ Hnd Hw) as (f & dt & Hf & _ & _ & Hall).
    set (Q := λ k v n, nc_variable R (get_attributes (now_isoformat R))
                         {| nc_dimensions := [("delta_time", len dt)];
                            nc_variables := []; nc_attrs := ∅ |} k v = Ok n)
      in Hall.
    destruct (dict_get_Forall2 Q _ _ _ _ Hall Hx) as (ncx & Hncx & Hvx).
    destruct (dict_get_Forall2 Q _ _ _ _ Hall Hy) as (ncy & Hncy & Hvy).
    apply nc_variable_Ok in Hvx as (_ & _ & _ & Hdx & _).
    apply nc_variable_Ok in Hvy as (_ & _ & _ & Hdy & _).
    exists (NetCDF f), (nv_data ncx), (nv_data ncy). cbn [stored_column].
    rewrite Hncx, Hncy. split_and!; try done; rewrite ?Hdx, ?Hdy; reflexivity.
  - unfold write_pytables, hdfstore_open in Hw. rewrite lookup_insert_eq in Hw.
    cbn [mbind result_bind hs_attrs hs_frames] in Hw. bind_inv Hw.
    injection Hw as <-. eexists _, _, _. split; [apply lookup_insert_eq|].
    cbn [stored_column hs_frames]. rewrite Hx, Hy. split_and!; reflexivity.
  - destruct (write_h5py_datasets R _ _ _ _ _ _ Hnd' Hw) as (f & Hf & _ & Hall).
    pose proof (Hall "longitude") as Hlon. rewrite Hx in Hlon.
    pose proof (Hall "latitude") as Hlat. rewrite Hy in Hlat.
    destruct Hlon as (_ & dx & _ & Hdx & Hvx & _).
    destruct Hlat as (_ & dy & _ & Hdy & Hvy & _).
    exists (H5File f), (ds_data dx), (ds_data dy). cbn [stored_column].
    rewrite Hdx, Hdy. split_and!; try done; rewrite ?Hvx, ?Hvy; reflexivity.
Qed.

Lemma coordinates_from_geometry_witness :
  NoDup (dict_keys (df_columns (gdf_frame two_rows_latitude)))
  ∧ ∃ c x y,
      written (to_file cpython ∅ two_rows_latitude "out.nc" "nc" no_kwargs)
        !! "out.nc" = Some c
      ∧ stored_column c "longitude" = Some x
      ∧ stored_column c "latitude" = Some y
      ∧ arr_dtype x = float64 ∧ arr_dtype y = float64
      ∧ arr_items x = SFloat ∘ point_x <$> gdf_geometry two_rows_latitude
      ∧ arr_items y = SFloat ∘ point_y <$> gdf_geometry two_rows_latitude.
Proof.
  assert (NoDup (dict_keys (df_columns (gdf_frame two_rows_latitude)))) as Hnd.
  { apply (bool_decide_unpack _). vm_compute. exact I. }
  split; [exact Hnd|].
  apply (coordinates_from_geometry cpython ∅ two_rows_latitude "out.nc" "nc"
           no_kwargs _ Hnd); [done|].
  vm_compute. reflexivity.
Defined.
(** ** The rows a reader returns *)

Lemma points_items x y x' y' :
  arr_items x = arr_items x' → arr_items y = arr_items y' →
  points x y = points x' y'.
Proof. unfold points. by intros -> ->. Qed.

(** The table assembled from the variables [vars], each unpacked by [g]
    from the data [d] it stores, which [g] leaves with its values and its
    element type. *)
Lemma assemble_stored {V} (g d : V → ndarray) (vars : list (string * V)) gdf :
  (∀ v, arr_items (g v) = arr_items (d v) ∧ arr_dtype (g v) = arr_dtype (d v)) →
  assemble (dict_map g vars) = Ok gdf →
  ∃ vt vx vy σ,
    dict_get "delta_time" vars = Some vt
    ∧ dict_get "longitude" vars = Some vx
    ∧ dict_get "latitude" vars = Some vy
    ∧ σ ≡ₚ seq 0 (len (d vt))
    ∧ df_index (gdf_frame gdf) = DatetimeIndex (take σ (time_column (d vt)))
    ∧ gdf_geometry gdf = take σ (points (d vx) (d vy))
    ∧ (∀ key col,
         dict_get key (df_columns (gdf_frame gdf)) = Some col →
         ∃ v, dict_get key vars = Some v
           ∧ arr_dtype col = arr_dtype (d v)
           ∧ arr_items col = take σ (arr_items (d v)))
    ∧ (Sorted time_le (time_column (d vt)) → σ = seq 0 (len (d vt))).
Proof.
  intros Hg H.
  apply assemble_Ok in H as (dt & x & y & Hdt & Hx & Hy & ->).
  rewrite dict_get_map in Hdt, Hx, Hy.
  destruct (dict_get "delta_time" vars) as [vt|]; [|done].
  destruct (dict_get "longitude" vars) as [vx|]; [|done].
  destruct (dict_get "latitude" vars) as [vy|]; [|done].
  injection Hdt as <-. injection Hx as <-. injection Hy as <-.
  assert (time_column (g vt) = time_column (d vt)) as Ht.
  { apply time_column_items, Hg. }
  assert (length (time_column (d vt)) = len (d vt)) as Hlen.
  { unfold time_column, len. by rewrite length_fmap. }
  exists vt, vx, vy, (argsort (time_column (d vt))).
  cbn [rows_of gdf_frame gdf_geometry df_index df_columns]. rewrite Ht.
  split_and!; try done.
  - by rewrite argsort_Permutation, Hlen.
  - f_equal. apply points_items; apply Hg.
  - intros key col. rewrite dict_get_map, kept_columns_get, dict_get_map.
    case_decide; [done|].
    destruct (dict_get key vars) as [v|]; [|done]. cbn. intros [= <-].
    exists v. split; [done|]. cbn [array_take arr_dtype arr_items].
    destruct (Hg v) as [-> ->]. done.
  - intros Hs. by rewrite argsort_sorted_id, Hlen.
Qed.

Lemma nc_unpack_items v :
  arr_items (nc_unpack v) = arr_items (nv_data v)
  ∧ arr_dtype (nc_unpack v) = arr_dtype (nv_data v).
Proof.
  unfold nc_unpack, byteswap_newbyteorder, copy.
  by destruct (arr_order (squeeze (nv_data v))).
Qed.

(** X13. Whatever classic or h5py file it is read from, a table that is read
    holds the rows of the file, each kept whole: one permutation of the
    rows, which puts the reconstructed times in ascending order and is the
    identity when they already are, gives the index from the stored
    [delta_time], the points from the stored coordinates, and every column
    from the stored variable of its name, with its values and its element
    type. *)
Theorem read_rows fs filename format kw gdf :
  route_of format kw = Some Classic ∨ route_of format kw = Some VariantB →
  from_file fs filename format kw = Ok (Some gdf) →
  ∃ c delta_time x y σ,
    fs !! filename = Some c
    ∧ stored_column c "delta_time" = Some delta_time
    ∧ stored_column c "longitude" = Some x
    ∧ stored_column c "latitude" = Some y
    ∧ σ ≡ₚ seq 0 (len delta_time)
    ∧ df_index (gdf_frame gdf) = DatetimeIndex (take σ (time_column delta_time))
    ∧ gdf_geometry gdf = take σ (points x y)
    ∧ (∀ key col,
         dict_get key (df_columns (gdf_frame gdf)) = Some col →
         ∃ stored, stored_column c key = Some stored
           ∧ arr_dtype col = arr_dtype stored
           ∧ arr_items col = take σ (arr_items stored))
    ∧ (Sorted time_le (time_column delta_time) → σ = seq 0 (len delta_time)).
Proof.
  intros Hroute H. rewrite from_file_route in H.
  destruct Hroute as [Hr|Hr]; rewrite Hr in H; bind_inv H; injection H as <-.
  - unfold from_nc in Ha. bind_inv Ha. unfold netcdf_open in Ha0.
    destruct (fs !! filename) as [[f|f|f]|] eqn:Hf; try done. injection Ha0 as <-.
    apply (assemble_stored nc_unpack nv_data) in Ha
      as (vt & vx & vy & σ & Ht & Hx & Hy & Hσ & Hi & Hg & Hc & Hs);
      [|apply nc_unpack_items].
    exists (NetCDF f), (nv_data vt), (nv_data vx), (nv_data vy), σ.
    cbn [stored_column]. rewrite Ht, Hx, Hy. split_and!; try done.
    intros key col Hcol. destruct (Hc key col Hcol) as (v & -> & ? & ?).
    by exists (nv_data v).
  - unfold read_h5py in Ha. bind_inv Ha. unfold h5_open in Ha0.
    destruct (fs !! filename) as [[f|f|f]|] eqn:Hf; try done. injection Ha0 as <-.
    apply (assemble_stored (λ val, squeeze (ds_data val)) ds_data) in Ha
      as (vt & vx & vy & σ & Ht & Hx & Hy & Hσ & Hi & Hg & Hc & Hs); [|done].
    rewrite dict_get_map_to_list in Ht, Hx, Hy.
    exists (H5File f), (ds_data vt), (ds_data vx), (ds_data vy), σ.
    cbn [stored_column]. rewrite Ht, Hx, Hy. split_and!; try done.
    intros key col Hcol. destruct (Hc key col Hcol) as (v & Hv & ? & ?).
    rewrite dict_get_map_to_list in Hv. rewrite Hv. by exists (ds_data v).
Qed.

Lemma read_rows_witness :
  (route_of "h5" with_h5py = Some Classic ∨ route_of "h5" with_h5py = Some VariantB)
  ∧ ∃ c delta_time x y σ,
      written (to_file cpython ∅ late_first "out.h5" "h5" with_h5py) !! "out.h5"
      = Some c
      ∧ stored_column c "delta_time" = Some delta_time
      ∧ stored_column c "longitude" = Some x
      ∧ stored_column c "latitude" = Some y
      ∧ σ ≡ₚ seq 0 (len delta_time)
      ∧ df_index (gdf_frame
          (returned (from_file (written (to_file cpython ∅ late_first "out.h5" "h5"
                                           with_h5py)) "out.h5" "h5" with_h5py)))
        = DatetimeIndex (take σ (time_column delta_time))
      ∧ gdf_geometry
          (returned (from_file (written (to_file cpython ∅ late_first "out.h5" "h5"
                                           with_h5py)) "out.h5" "h5" with_h5py))
        = take σ (points x y)
      ∧ (∀ key col,
           dict_get key (df_columns (gdf_frame
             (returned (from_file (written (to_file cpython ∅ late_first "out.h5"
                                              "h5" with_h5py))
                          "out.h5" "h5" with_h5py))))
           = Some col →
           ∃ stored, stored_column c key = Some stored
             ∧ arr_dtype col = arr_dtype stored
             ∧ arr_items col = take σ (arr_items stored))
      ∧ (Sorted time_le (time_column delta_time) → σ = seq 0 (len delta_time)).
Proof.
  split; [by right|].
  apply (read_rows
           (written (to_file cpython ∅ late_first "out.h5" "h5" with_h5py))
           "out.h5" "h5" with_h5py); [by right|].
  vm_compute. reflexivity.
Defined.
(** ** Element types the classic container lacks *)

Lemma foldM_raises_with {A B} (f : B → A → result B) b l a e :
  a ∈ l →
  (∀ b, f b a = Raise e) →
  (∀ b a', a' ∈ l → is_ok (f b a') = true ∨ f b a' = Raise e) →
  foldM f b l = Raise e.
Proof.
  intros Hin Ha Hl. revert b.
  induction l as [|a' l IH]; intros b; [by apply elem_of_nil in Hin|].
  cbn [foldM]. destruct (Hl b a') as [Hok|Hr]; [apply elem_of_cons; by left| |].
  - destruct (f b a') as [b'|e'] eqn:E; [|done]. cbn [mbind result_bind].
    apply elem_of_cons in Hin as [->|Hin].
    + rewrite Ha in E. done.
    + apply IH; [done|]. intros b0 a0 Ha0. apply Hl. apply elem_of_cons. by right.
  - by rewrite Hr.
Qed.

Section types.
Context (R : runtime).

Lemma nc_write_column_cases attributes fileID key val :
  is_ok (attributes_items attributes key) = true →
  if nc_has_type R (arr_dtype (nc_cast val))
  then is_ok (nc_write_column R attributes fileID (key, val)) = true
  else nc_write_column R attributes fileID (key, val) = Raise ValueError.
Proof.
  intros Hitems. unfold nc_write_column, nc_variable, nc_cast, createVariable, copy.
  cbn [fst snd].
  destruct (is_unsigned (arr_dtype val)); cbn [astype_int32 arr_dtype].
  - destruct (nc_has_type R int32); cbn [mbind result_bind]; [|done].
    by destruct (attributes_items attributes key).
  - destruct (nc_has_type R (arr_dtype val)); cbn [mbind result_bind]; [|done].
    by destruct (attributes_items attributes key).
Qed.

(** X14. The classic writer creates each variable before it looks up the
    column's attributes: on a table of schema columns with [delta_time], a
    column whose element type (int32 for an unsigned one) the container
    lacks makes the write raise [ValueError]. *)
Theorem classic_type_required fs gdf filename kw delta_time key val :
  Forall schema_column (dict_keys (df_columns (gdf_frame gdf))) →
  dict_get "delta_time" (df_columns (gdf_frame gdf)) = Some delta_time →
  dict_get key (df_columns (flatten_geometry gdf)) = Some val →
  nc_has_type R (arr_dtype (nc_cast val)) = false →
  to_nc R fs gdf filename kw = Raise ValueError.
Proof.
  intros Hschema Hdt Hval Htype.
  assert (∀ key, key ∈ ["latitude"; "longitude"; "time"; "geometry"] →
                 key ∉ dict_keys (df_columns (gdf_frame gdf))) as Hnames.
  { intros k Hk Hin. eapply Forall_forall in Hschema; [|exact Hin].
    by apply schema_column_names in Hschema. }
  assert (df_columns (flatten_geometry gdf)
          = df_columns (gdf_frame gdf)
            ++ [("latitude", latitude_of gdf); ("longitude", longitude_of gdf)])
    as Hflat.
  { apply flatten_columns; apply Hnames; in_list. }
  assert (∀ kv, kv ∈ df_columns (flatten_geometry gdf) →
            is_ok (attributes_items (get_attributes (now_isoformat R)) kv.1) = true)
    as Hitems.
  { intros [k v]. rewrite Hflat, elem_of_app. intros [Hin|Hin]; cbn [fst].
    - apply schema_column_items.
      eapply Forall_forall in Hschema as [? _]; [done|].
      apply list_elem_of_fmap. by exists (k, v).
    - apply schema_column_items.
      repeat (apply elem_of_cons in Hin as [[= -> _]|Hin]);
        [cbn; in_list..|by apply elem_of_nil in Hin]. }
  unfold to_nc, df_getitem, dict_getitem.
  rewrite flatten_geometry_get, !decide_False, Hdt by done.
  cbn [mbind result_bind].
  erewrite (foldM_raises_with _ _ _ (key, val)); [done| | |].
  - by apply dict_get_elem_of.
  - intros b.
    pose proof (nc_write_column_cases (get_attributes (now_isoformat R)) b key val)
      as Hc.
    rewrite Htype in Hc. apply Hc. by apply (Hitems (key, val)), dict_get_elem_of.
  - intros b [k v] Hin.
    pose proof (nc_write_column_cases (get_attributes (now_isoformat R)) b k v
                  (Hitems _ Hin)) as Hc.
    destruct (nc_has_type R (arr_dtype (nc_cast v))); [by left|by right].
Qed.
End types.

Lemma classic_type_required_witness :
  Forall schema_column (dict_keys (df_columns (gdf_frame two_rows_int64)))
  ∧ nc_has_type cpython (arr_dtype (nc_cast (array int64 [SInt 12; SInt 12]))) = false
  ∧ to_nc cpython ∅ two_rows_int64 "out.nc" no_kwargs = Raise ValueError.
Proof.
  assert (Forall schema_column (dict_keys (df_columns (gdf_frame two_rows_int64))))
    as Hschema.
  { apply (bool_decide_unpack _). vm_compute. exact I. }
  split; [exact Hschema|]. split; [reflexivity|].
  apply (classic_type_required cpython ∅ two_rows_int64 "out.nc" no_kwargs
           (array float64 [SFloat 0%float; SFloat 86400%float])
           "cycle" (array int64 [SInt 12; SInt 12]) Hschema);
    reflexivity.
Defined.
(** ** Rows without a time *)

Lemma time_le_trans a b c : time_le a b → time_le b c → time_le a c.
Proof.
  unfold time_le. destruct a, b, c; cbn; try done.
  rewrite !Z.leb_le. lia.
Qed.

Lemma Sorted_time_lookup (l : list time64) i j x y :
  Sorted time_le l → (i < j)%nat → l !! i = Some x → l !! j = Some y →
  time_le x y.
Proof.
  intros Hs. apply Sorted_StronglySorted in Hs; [|intros a b c; apply time_le_trans].
  revert i j. induction Hs as [|a l _ IH Hall]; intros i j Hij Hi Hj; [done|].
  destruct j as [|j]; [lia|]. cbn in Hj. destruct i as [|i]; cbn in Hi.
  - injection Hi as <-. by eapply Forall_lookup_1 in Hall.
  - eapply (IH i j); [lia|done|done].
Qed.

(** X15. A row whose [delta_time] is not a number is read with no time at all,
    and the rows without a time come after every row that has one. *)
Theorem rows_without_time_last fs filename format kw gdf :
  route_of format kw = Some Classic ∨ route_of format kw = Some VariantB →
  from_file fs filename format kw = Ok (Some gdf) →
  ∃ index delta_time,
    df_index (gdf_frame gdf) = DatetimeIndex index
    ∧ dict_get "delta_time" (df_columns (gdf_frame gdf)) = Some delta_time
    ∧ (∀ i, arr_items delta_time !! i = Some (SFloat nan) →
         index !! i = Some NaT)
    ∧ (∀ i j t, (i < j)%nat → index !! i = Some NaT → index !! j = Some t →
         t = NaT).
Proof.
  intros Hroute H. rewrite from_file_route in H.
  assert (∃ nc, assemble nc = Ok gdf) as [nc Hnc].
  { destruct Hroute as [Hr|Hr]; rewrite Hr in H; bind_inv H; injection H as <-.
    - unfold from_nc in Ha. bind_inv Ha. eauto.
    - unfold read_h5py in Ha. bind_inv Ha. eauto. }
  apply assemble_Ok in Hnc as (dt & x & y & Hdt & _ & _ & ->).
  set (σ := argsort (time_column dt)).
  exists (take σ (time_column dt)), (array_take σ dt). split; [done|]. split.
  { cbn [rows_of gdf_frame df_columns].
    by rewrite dict_get_map, kept_columns_delta_time, Hdt. }
  split.
  - intros i Hi. cbn [array_take arr_items] in Hi. unfold time_column.
    rewrite take_fmap, list_lookup_fmap, Hi. reflexivity.
  - intros i j t Hij Hi Hj.
    pose proof (Sorted_time_lookup _ i j NaT t (argsort_Sorted _) Hij Hi Hj) as Hle.
    by destruct t.
Qed.

Lemma rows_without_time_last_witness :
  (route_of "nc" no_kwargs = Some Classic ∨ route_of "nc" no_kwargs = Some VariantB)
  ∧ df_index (gdf_frame
      (returned (from_file (written (to_file cpython ∅ two_rows_nan "out.nc" "nc"
                                       no_kwargs)) "out.nc" "nc" no_kwargs)))
    = DatetimeIndex [Nanos (datetime64_ns 2018 1 1); NaT]
  ∧ ∃ index delta_time,
      df_index (gdf_frame
        (returned (from_file (written (to_file cpython ∅ two_rows_nan "out.nc" "nc"
                                         no_kwargs)) "out.nc" "nc" no_kwargs)))
      = DatetimeIndex index
      ∧ dict_get "delta_time" (df_columns (gdf_frame
          (returned (from_file (written (to_file cpython ∅ two_rows_nan "out.nc"
                                           "nc" no_kwargs))
                       "out.nc" "nc" no_kwargs))))
        = Some delta_time
      ∧ (∀ i, arr_items delta_time !! i = Some (SFloat nan) →
           index !! i = Some NaT)
      ∧ (∀ i j t, (i < j)%nat → index !! i = Some NaT → index !! j = Some t →
           t = NaT).
Proof.
  split; [by left|]. split; [vm_compute; reflexivity|].
  apply (rows_without_time_last
           (written (to_file cpython ∅ two_rows_nan "out.nc" "nc" no_kwargs))
           "out.nc" "nc" no_kwargs); [by left|].
  vm_compute. reflexivity.
Defined.
